(** * Threshold alert engine of the Meteorological Data Service

    A shallow embedding of [services/alert_service.py] (class [AlertService]),
    of the rows of [models.py] it reads and writes, and of the
    [/alerts/{alert_id}/deactivate] route of [routers/admin.py].

    - A Python [float] is a primitive binary64 float; [a >= b] is
      [PrimFloat.leb b a], so a NaN compares false with everything.
    - A [datetime] is a number of microseconds ([Z]) since 1970-01-01 00:00;
      [timedelta(hours=24)] is [86400000000].  Subtracting a [timedelta] from
      a [datetime] raises [OverflowError] when the result leaves the years 1
      to 9999, as in Python.
    - Effects are explicit: a computation maps a state to an outcome (a value
      or a raised exception) and a new state.  The check functions receive no
      database session, so they run over the clock alone; everything else runs
      over the [World]: the clock, the database tables, the SQLAlchemy session
      (objects added or modified and not yet flushed) and the log.
    - The clock and the database are oracles carried by the state: the k-th
      call of [datetime.now()] returns [readings k], the k-th round trip to
      the database raises when [store_fails k], and the database's own
      [now()], the server default of [created_at], is [server_now k] during
      that round trip.
    - A Python object is followed by value.  Where the code hands an object
      to the session and keeps it ([db.add(alert)], with [alert] also in the
      list that is returned), the session tells the place it gave the object,
      and the object is read back from that place after the flush. *)

From Stdlib Require Import ZArith List String Bool Lia Permutation Arith Sorted.
From Corelib Require Import PrimFloat.
Import ListNotations.

Local Open Scope string_scope.
Local Open Scope Z_scope.

(** ** Outcomes and computations *)

Inductive Exn : Type :=
| TypeError
| OverflowError
| OperationalError
| HTTPException (status_code : Z) (detail : string).

Inductive Outcome (A : Type) : Type :=
| Return (value : A)
| Raise (exc : Exn).

Arguments Return {A} value.
Arguments Raise {A} exc.

Definition Comp (S A : Type) : Type := S -> Outcome A * S.

Definition ret {S A} (a : A) : Comp S A := fun s => (Return a, s).

Definition raise {S A} (exc : Exn) : Comp S A := fun s => (Raise exc, s).

Definition bind {S A B} (m : Comp S A) (k : A -> Comp S B) : Comp S B :=
  fun s =>
    match m s with
    | (Return a, s') => k a s'
    | (Raise exc, s') => (Raise exc, s')
    end.

(** [try: body / except Exception as e: handler e]. *)
Definition try_except {S A} (body : Comp S A) (handler : Exn -> Comp S A) : Comp S A :=
  fun s =>
    match body s with
    | (Return a, s') => (Return a, s')
    | (Raise exc, s') => handler exc s'
    end.

Definition gets {S A} (f : S -> A) : Comp S A := fun s => (Return (f s), s).

Definition modify {S} (f : S -> S) : Comp S unit := fun s => (Return tt, f s).

Declare Scope comp_scope.
Delimit Scope comp_scope with comp.

Notation "x <- m ;; k" := (bind m (fun x => k))
  (at level 100, m at next level, right associativity) : comp_scope.
Notation "m ;; k" := (bind m (fun _ => k))
  (at level 100, right associativity) : comp_scope.

Local Open Scope comp_scope.

(** ** Floats and timestamps *)

(** Python [a >= b] and [a <= b] on floats. *)
Definition float_ge (a b : float) : bool := PrimFloat.leb b a.
Definition float_le (a b : float) : bool := PrimFloat.leb a b.

(** [timedelta(hours=h)] and [timedelta(days=d)], in microseconds. *)
Definition timedelta_hours (h : Z) : Z := h * 3600000000.
Definition timedelta_days (d : Z) : Z := d * 86400000000.

(** [datetime.min] (0001-01-01 00:00:00) and [datetime.max]
    (9999-12-31 23:59:59.999999). *)
Definition datetime_min : Z := -62135596800000000.
Definition datetime_max : Z := 253402300799999999.

(** [timedelta(days=days)] with a variable number of days: Python refuses a
    magnitude above 999999999 days. *)
Definition timedelta {S} (days : Z) : Comp S Z :=
  if Z.abs days <=? 999999999 then ret (timedelta_days days) else raise OverflowError.

(** [t - delta] for a [datetime] and a [timedelta]: the result must be a
    [datetime]. *)
Definition datetime_sub {S} (t delta : Z) : Comp S Z :=
  if (datetime_min <=? t - delta) && (t - delta <=? datetime_max)
  then ret (t - delta)
  else raise OverflowError.

(** ** The clock *)

Record Clock : Type := {
  readings : nat -> Z;   (* the value of the k-th reading *)
  reads : nat            (* how many readings were taken so far *)
}.

Definition tick (c : Clock) : Clock :=
  {| readings := readings c; reads := S (reads c) |}.

Definition datetime_now : Comp Clock Z :=
  fun c => (Return (readings c (reads c)), tick c).

(** ** models.py *)

Inductive RiskLevel : Type := Bajo | Medio | Alto | Critico.

Inductive Severity : Type := info | warning | watch | advisory.

(** A literal, or an f-string with one interpolated float or integer. *)
Inductive Text : Type :=
| Lit (s : string)
| Fmt (before : string) (x : float) (after : string)
| FmtInt (before : string) (n : Z) (after : string).

Module Location.
(** The columns of [locations] the alert engine uses. *)
Record t : Type := {
  id : Z;
  name : string;
  country : string
}.
End Location.

Module WeatherData.
(** The columns of [weather_data] the alert engine reads, and [time]. *)
Record t : Type := {
  id : option Z;
  location_id : Z;
  time : Z;
  temperature_2m : option float;
  relativehumidity_2m : option float;
  rain : option float;
  windspeed_10m : option float
}.
End WeatherData.

Module Alert.
(** An [Alert] object.  [id], [is_active] and [created_at] are [None] on an
    object that was built and not yet inserted; the insert fills them in. *)
Record t : Type := {
  id : option Z;
  weather_data_id : option Z;
  location_id : Z;
  alert_type : string;
  risk_level : RiskLevel;
  severity : option Severity;
  threshold_value : option float;
  current_value : option float;
  alert_start : Z;
  alert_end : option Z;
  is_active : option bool;
  description : option Text;
  recommendations : option Text;
  created_at : option Z
}.

(** What the INSERT does to a new object: the primary key comes from the
    sequence, [is_active] takes its column default [True] and [created_at]
    its server default [now()], each only where the object left it unset. *)
Definition inserted (key : Z) (server_now : Z) (a : t) : t :=
  {| id := match id a with Some k => Some k | None => Some key end;
     weather_data_id := weather_data_id a;
     location_id := location_id a;
     alert_type := alert_type a;
     risk_level := risk_level a;
     severity := severity a;
     threshold_value := threshold_value a;
     current_value := current_value a;
     alert_start := alert_start a;
     alert_end := alert_end a;
     is_active := match is_active a with Some b => Some b | None => Some true end;
     description := description a;
     recommendations := recommendations a;
     created_at := match created_at a with Some c => Some c | None => Some server_now end |}.

(** [alert.is_active = False; alert.alert_end = now]. *)
Definition deactivated (now : Z) (a : t) : t :=
  {| id := id a;
     weather_data_id := weather_data_id a;
     location_id := location_id a;
     alert_type := alert_type a;
     risk_level := risk_level a;
     severity := severity a;
     threshold_value := threshold_value a;
     current_value := current_value a;
     alert_start := alert_start a;
     alert_end := Some now;
     is_active := Some false;
     description := description a;
     recommendations := recommendations a;
     created_at := created_at a |}.
End Alert.

(** ** AlertService: thresholds and the five checks *)

(** One table of [DEFAULT_THRESHOLDS]: the dict keyed by the four risk levels. *)
Definition Thresholds : Type := RiskLevel -> float.

Record ThresholdCatalog : Type := {
  temperatura_alta : Thresholds;
  temperatura_baja : Thresholds;
  lluvia_intensa : Thresholds;
  viento_fuerte : Thresholds;
  humedad_alta : Thresholds
}.

Definition DEFAULT_THRESHOLDS : ThresholdCatalog :=
  {| temperatura_alta := fun r =>
       match r with Bajo => 30.0 | Medio => 35.0 | Alto => 40.0 | Critico => 45.0 end%float;
     temperatura_baja := fun r =>
       match r with Bajo => 5.0 | Medio => 0.0 | Alto => -5.0 | Critico => -10.0 end%float;
     lluvia_intensa := fun r =>
       match r with Bajo => 10.0 | Medio => 25.0 | Alto => 50.0 | Critico => 100.0 end%float;
     viento_fuerte := fun r =>
       match r with Bajo => 20.0 | Medio => 35.0 | Alto => 50.0 | Critico => 75.0 end%float;
     humedad_alta := fun r =>
       match r with Bajo => 80.0 | Medio => 90.0 | Alto => 95.0 | Critico => 98.0 end%float |}.

Record AlertService : Type := { thresholds : ThresholdCatalog }.

(** [AlertService.__init__] and the singleton at the end of the module. *)
Definition alert_service : AlertService := {| thresholds := DEFAULT_THRESHOLDS |}.

Definition RiskLevel_eqb (a b : RiskLevel) : bool :=
  match a, b with
  | Bajo, Bajo | Medio, Medio | Alto, Alto | Critico, Critico => true
  | _, _ => false
  end.

(** [risk_level in [...]]. *)
Definition risk_in (r : RiskLevel) (l : list RiskLevel) : bool :=
  existsb (RiskLevel_eqb r) l.

(** Reading a metric that a comparison needs: comparing [None] with a float
    raises [TypeError]. *)
Definition operand {S} (x : option float) : Comp S float :=
  match x with
  | Some v => ret v
  | None => raise TypeError
  end.

Definition _get_temperature_recommendations (temp : float) (type_temp : string) : Text :=
  if String.eqb type_temp "alta" then
    if float_ge temp 40 then
      Lit "Evite la exposición directa al sol. Manténgase hidratado."
    else if float_ge temp 35 then
      Lit "Limite actividades al aire libre. Use ropa ligera."
    else
      Lit "Use protector solar. Manténgase hidratado."
  else
    Lit "Use ropa apropiada para el frío.".

Definition _check_temperature_high (self : AlertService) (weather_data : WeatherData.t)
  : Comp Clock (option Alert.t) :=
  temp <- operand (WeatherData.temperature_2m weather_data) ;;
  let thresholds := temperatura_alta (thresholds self) in
  let risk_level :=
    if float_ge temp (thresholds Critico) then Some Critico
    else if float_ge temp (thresholds Alto) then Some Alto
    else if float_ge temp (thresholds Medio) then Some Medio
    else if float_ge temp (thresholds Bajo) then Some Bajo
    else None in
  match risk_level with
  | Some risk_level =>
      now <- datetime_now ;;
      ret (Some {|
        Alert.id := None;
        Alert.weather_data_id := WeatherData.id weather_data;
        Alert.location_id := WeatherData.location_id weather_data;
        Alert.alert_type := "temperatura_alta";
        Alert.risk_level := risk_level;
        Alert.severity :=
          Some (if risk_in risk_level [Bajo; Medio] then warning else advisory);
        Alert.threshold_value := Some (thresholds risk_level);
        Alert.current_value := Some temp;
        Alert.alert_start := now;
        Alert.alert_end := None;
        Alert.is_active := None;
        Alert.description := Some (Fmt "Temperatura alta detectada: " temp "°C");
        Alert.recommendations := Some (_get_temperature_recommendations temp "alta");
        Alert.created_at := None |})
  | None => ret None
  end.

Definition _check_temperature_low (self : AlertService) (weather_data : WeatherData.t)
  : Comp Clock (option Alert.t) :=
  temp <- operand (WeatherData.temperature_2m weather_data) ;;
  let thresholds := temperatura_baja (thresholds self) in
  let risk_level :=
    if float_le temp (thresholds Critico) then Some Critico
    else if float_le temp (thresholds Alto) then Some Alto
    else if float_le temp (thresholds Medio) then Some Medio
    else if float_le temp (thresholds Bajo) then Some Bajo
    else None in
  match risk_level with
  | Some risk_level =>
      now <- datetime_now ;;
      ret (Some {|
        Alert.id := None;
        Alert.weather_data_id := WeatherData.id weather_data;
        Alert.location_id := WeatherData.location_id weather_data;
        Alert.alert_type := "temperatura_baja";
        Alert.risk_level := risk_level;
        Alert.severity :=
          Some (if risk_in risk_level [Bajo; Medio] then warning else advisory);
        Alert.threshold_value := Some (thresholds risk_level);
        Alert.current_value := Some temp;
        Alert.alert_start := now;
        Alert.alert_end := None;
        Alert.is_active := None;
        Alert.description := Some (Fmt "Temperatura baja detectada: " temp "°C");
        Alert.recommendations := Some (_get_temperature_recommendations temp "baja");
        Alert.created_at := None |})
  | None => ret None
  end.

Definition _check_heavy_rain (self : AlertService) (weather_data : WeatherData.t)
  : Comp Clock (option Alert.t) :=
  rain <- operand (WeatherData.rain weather_data) ;;
  let thresholds := lluvia_intensa (thresholds self) in
  let risk_level :=
    if float_ge rain (thresholds Critico) then Some Critico
    else if float_ge rain (thresholds Alto) then Some Alto
    else if float_ge rain (thresholds Medio) then Some Medio
    else if float_ge rain (thresholds Bajo) then Some Bajo
    else None in
  match risk_level with
  | Some risk_level =>
      now <- datetime_now ;;
      ret (Some {|
        Alert.id := None;
        Alert.weather_data_id := WeatherData.id weather_data;
        Alert.location_id := WeatherData.location_id weather_data;
        Alert.alert_type := "lluvia_intensa";
        Alert.risk_level := risk_level;
        Alert.severity :=
          Some (if risk_in risk_level [Alto; Critico] then watch else warning);
        Alert.threshold_value := Some (thresholds risk_level);
        Alert.current_value := Some rain;
        Alert.alert_start := now;
        Alert.alert_end := None;
        Alert.is_active := None;
        Alert.description := Some (Fmt "Lluvia intensa detectada: " rain "mm");
        Alert.recommendations :=
          Some (Lit "Evitar viajes innecesarios. Manténgase en lugares seguros.");
        Alert.created_at := None |})
  | None => ret None
  end.

Definition _check_strong_wind (self : AlertService) (weather_data : WeatherData.t)
  : Comp Clock (option Alert.t) :=
  wind_speed <- operand (WeatherData.windspeed_10m weather_data) ;;
  let thresholds := viento_fuerte (thresholds self) in
  let risk_level :=
    if float_ge wind_speed (thresholds Critico) then Some Critico
    else if float_ge wind_speed (thresholds Alto) then Some Alto
    else if float_ge wind_speed (thresholds Medio) then Some Medio
    else if float_ge wind_speed (thresholds Bajo) then Some Bajo
    else None in
  match risk_level with
  | Some risk_level =>
      now <- datetime_now ;;
      ret (Some {|
        Alert.id := None;
        Alert.weather_data_id := WeatherData.id weather_data;
        Alert.location_id := WeatherData.location_id weather_data;
        Alert.alert_type := "viento_fuerte";
        Alert.risk_level := risk_level;
        Alert.severity :=
          Some (if risk_in risk_level [Alto; Critico] then advisory else warning);
        Alert.threshold_value := Some (thresholds risk_level);
        Alert.current_value := Some wind_speed;
        Alert.alert_start := now;
        Alert.alert_end := None;
        Alert.is_active := None;
        Alert.description := Some (Fmt "Viento fuerte detectado: " wind_speed "m/s");
        Alert.recommendations :=
          Some (Lit "Evitar actividades al aire libre. Asegurar objetos sueltos.");
        Alert.created_at := None |})
  | None => ret None
  end.

Definition _check_high_humidity (self : AlertService) (weather_data : WeatherData.t)
  : Comp Clock (option Alert.t) :=
  humidity <- operand (WeatherData.relativehumidity_2m weather_data) ;;
  let thresholds := humedad_alta (thresholds self) in
  let risk_level :=
    if float_ge humidity (thresholds Critico) then Some Critico
    else if float_ge humidity (thresholds Alto) then Some Alto
    else if float_ge humidity (thresholds Medio) then Some Medio
    else if float_ge humidity (thresholds Bajo) then Some Bajo
    else None in
  match risk_level with
  | Some risk_level =>
      now <- datetime_now ;;
      ret (Some {|
        Alert.id := None;
        Alert.weather_data_id := WeatherData.id weather_data;
        Alert.location_id := WeatherData.location_id weather_data;
        Alert.alert_type := "humedad_alta";
        Alert.risk_level := risk_level;
        Alert.severity := Some info;
        Alert.threshold_value := Some (thresholds risk_level);
        Alert.current_value := Some humidity;
        Alert.alert_start := now;
        Alert.alert_end := None;
        Alert.is_active := None;
        Alert.description := Some (Fmt "Humedad alta detectada: " humidity "%");
        Alert.recommendations :=
          Some (Lit "Manténgase hidratado. Busque lugares con ventilación.");
        Alert.created_at := None |})
  | None => ret None
  end.

(** ** The world: clock, database, session, log *)

(** A log record: the text of the message, and the values interpolated in it. *)
Inductive LogRecord : Type :=
| log_info (message : string) (args : list Z)
| log_error (message : string) (exc : Exn).

Record World : Type := {
  clock : Clock;
  store_fails : nat -> bool;     (* whether the k-th round trip to the database raises *)
  server_now : nat -> Z;         (* the database's now() during the k-th round trip *)
  store_calls : nat;             (* round trips made so far *)
  locations : list Location.t;   (* table locations, in the order the database scans it *)
  alerts : list Alert.t;         (* table alerts: the committed rows *)
  session_new : list Alert.t;    (* db.add(...): objects waiting for their INSERT *)
  session_dirty : list Alert.t;  (* loaded objects with modified attributes, waiting for their UPDATE *)
  alert_id_seq : Z;              (* next value of the primary key sequence *)
  log : list LogRecord
}.

(** Lift a computation over the clock to the world. *)
Definition with_clock {A} (m : Comp Clock A) : Comp World A :=
  fun w =>
    let (r, c) := m (clock w) in
    (r, {| clock := c; store_fails := store_fails w; server_now := server_now w; store_calls := store_calls w;
           locations := locations w; alerts := alerts w;
           session_new := session_new w; session_dirty := session_dirty w;
           alert_id_seq := alert_id_seq w; log := log w |}).

Definition logger (r : LogRecord) : Comp World unit :=
  modify (fun w =>
    {| clock := clock w; store_fails := store_fails w; server_now := server_now w;
       store_calls := store_calls w;
       locations := locations w; alerts := alerts w;
       session_new := session_new w; session_dirty := session_dirty w;
       alert_id_seq := alert_id_seq w; log := log w ++ [r] |}).

(** SQL comparisons on nullable columns: a NULL makes the row fail the filter. *)
Definition is_true (b : option bool) : bool :=
  match b with Some true => true | _ => false end.

Definition at_or_after (t : option Z) (cutoff : Z) : bool :=
  match t with Some v => cutoff <=? v | None => false end.

(** [order_by(key.desc())]: a stable insertion sort, largest key first; rows
    with equal keys keep the order in which they came. *)
Fixpoint insert_desc {A} (key : A -> Z) (x : A) (l : list A) : list A :=
  match l with
  | [] => [x]
  | y :: l' => if key y <=? key x then x :: y :: l' else y :: insert_desc key x l'
  end.

Definition order_by_desc {A} (key : A -> Z) (l : list A) : list A :=
  fold_right (insert_desc key) [] l.

(** [GROUP BY key] with a row count: one pair per key, in order of first appearance. *)
Fixpoint count_into {K} (eqb : K -> K -> bool) (k : K) (acc : list (K * nat)) : list (K * nat) :=
  match acc with
  | [] => [(k, 1%nat)]
  | (k', n) :: rest =>
      if eqb k k' then (k', S n) :: rest else (k', n) :: count_into eqb k rest
  end.

Definition group_count {K} (eqb : K -> K -> bool) (key : Alert.t -> K) (rows : list Alert.t)
  : list (K * nat) :=
  fold_left (fun acc r => count_into eqb (key r) acc) rows [].

Module Session.
(** One round trip to the database: it raises when the store is down. *)
Definition round_trip : Comp World unit :=
  fun w =>
    let w' := {| clock := clock w; store_fails := store_fails w; server_now := server_now w;
                 store_calls := S (store_calls w);
                 locations := locations w; alerts := alerts w;
                 session_new := session_new w; session_dirty := session_dirty w;
                 alert_id_seq := alert_id_seq w; log := log w |} in
    if store_fails w (store_calls w) then (Raise OperationalError, w') else (Return tt, w').

(** [db.query(Alert).filter(criterion)]: the committed rows that pass.  The
    session is built with [autoflush=False], so objects that were only added
    are not seen. *)
Definition query (criterion : Alert.t -> bool) (w : World) : list Alert.t :=
  filter criterion (alerts w).

(** [.first()] *)
Definition first (criterion : Alert.t -> bool) : Comp World (option Alert.t) :=
  round_trip ;; gets (fun w => hd_error (query criterion w)).

(** [.order_by(Alert.alert_start.desc()).all()] *)
Definition all_by_start_desc (criterion : Alert.t -> bool) : Comp World (list Alert.t) :=
  round_trip ;; gets (fun w => order_by_desc Alert.alert_start (query criterion w)).

(** [.count()] *)
Definition count (criterion : Alert.t -> bool) : Comp World nat :=
  round_trip ;; gets (fun w => List.length (query criterion w)).

(** [db.query(key, func.count(Alert.id)).filter(criterion).group_by(key).all()] *)
Definition count_by {K} (eqb : K -> K -> bool) (key : Alert.t -> K)
  (criterion : Alert.t -> bool) : Comp World (list (K * nat)) :=
  round_trip ;; gets (fun w => group_count eqb key (query criterion w)).

(** The rows of the join of [locations] with [alerts] that belong to a
    location and pass the filter. *)
Definition joined (criterion : Alert.t -> bool) (w : World) (l : Location.t) : list Alert.t :=
  filter (fun a => (Alert.location_id a =? Location.id l) && criterion a) (alerts w).

(** [db.query(Location, func.count(Alert.id)).join(Alert).filter(criterion)
      .group_by(Location.id).order_by(func.count(Alert.id).desc()).first()]:
    one group per location that has a joined row, largest count first.  The
    query gives no second sort key: groups with equal counts come in the
    order in which the database produced them, here the scan order of
    [locations]. *)
Definition location_counts (criterion : Alert.t -> bool) (w : World)
  : list (Location.t * nat) :=
  order_by_desc (fun g => Z.of_nat (snd g))
    (filter (fun g => (0 <? snd g)%nat)
       (map (fun l => (l, List.length (joined criterion w l))) (locations w))).

Definition first_location_count (criterion : Alert.t -> bool)
  : Comp World (option (Location.t * nat)) :=
  round_trip ;; gets (fun w => hd_error (location_counts criterion w)).

(** [db.add(alert)]: the object joins the new objects of the session.  The
    result is its place among them. *)
Definition add (alert : Alert.t) : Comp World nat :=
  place <- gets (fun w => List.length (session_new w)) ;;
  modify (fun w =>
    {| clock := clock w; store_fails := store_fails w; server_now := server_now w;
       store_calls := store_calls w;
       locations := locations w; alerts := alerts w;
       session_new := session_new w ++ [alert]; session_dirty := session_dirty w;
       alert_id_seq := alert_id_seq w; log := log w |}) ;;
  ret place.

(** Attribute assignments on a loaded object: the session keeps the modified
    object until the next flush. *)
Definition modified (alert : Alert.t) : Comp World unit :=
  modify (fun w =>
    {| clock := clock w; store_fails := store_fails w; server_now := server_now w;
       store_calls := store_calls w;
       locations := locations w; alerts := alerts w;
       session_new := session_new w; session_dirty := session_dirty w ++ [alert];
       alert_id_seq := alert_id_seq w; log := log w |}).

Definition same_id (a b : Alert.t) : bool :=
  match Alert.id a, Alert.id b with
  | Some i, Some j => i =? j
  | _, _ => false
  end.

(** UPDATE ... WHERE id = ...: the row takes the values of the modified object. *)
Definition update_rows (dirty : list Alert.t) (rows : list Alert.t) : list Alert.t :=
  fold_left (fun rows d => map (fun r => if same_id r d then d else r) rows) dirty rows.

(** INSERT of the added objects, in the order they were added. *)
Fixpoint insert_rows (key : Z) (server_now : Z) (new : list Alert.t) : list Alert.t :=
  match new with
  | [] => []
  | a :: rest => Alert.inserted key server_now a :: insert_rows (key + 1) server_now rest
  end.

(** [db.commit()]: flush the session and commit.  When the round trip fails
    nothing is written and the session keeps its pending objects.  The result
    is the new objects of the session as the flush leaves them, each with the
    values of its row, in their places. *)
Definition commit : Comp World (list Alert.t) :=
  database_now <- gets (fun w => server_now w (store_calls w)) ;;
  round_trip ;;
  flushed <- gets (fun w => insert_rows (alert_id_seq w) database_now (session_new w)) ;;
  modify (fun w =>
    {| clock := clock w; store_fails := store_fails w; server_now := server_now w;
       store_calls := store_calls w;
       locations := locations w;
       alerts := update_rows (session_dirty w) (alerts w) ++ flushed;
       session_new := []; session_dirty := [];
       alert_id_seq := alert_id_seq w + Z.of_nat (List.length (session_new w));
       log := log w |}) ;;
  ret flushed.

(** [db.rollback()]: the pending objects are dropped. *)
Definition rollback : Comp World unit :=
  modify (fun w =>
    {| clock := clock w; store_fails := store_fails w; server_now := server_now w;
       store_calls := store_calls w;
       locations := locations w; alerts := alerts w;
       session_new := []; session_dirty := [];
       alert_id_seq := alert_id_seq w; log := log w |}).
End Session.

(** ** AlertService: the operations on the store *)

Definition is_some {A} (x : option A) : bool :=
  match x with Some _ => true | None => false end.

(** [if alert: alerts.append(alert)] *)
Definition append_if (alerts : list Alert.t) (alert : option Alert.t) : list Alert.t :=
  match alert with
  | Some a => alerts ++ [a]
  | None => alerts
  end.

(** [evaluate_weather_data], lines 54 to 84: the list [alerts] is filled by
    the checks of the metrics that are present.  This part of the [try] block
    takes no database session; it raises nothing (see
    [candidate_alerts_returns]), so the handler of the block can only be
    entered from the part below, when [alerts] is complete. *)
Definition candidate_alerts (self : AlertService) (weather_data : WeatherData.t)
  : Comp Clock (list Alert.t) :=
  let alerts := [] in
  alerts <-
    (if is_some (WeatherData.temperature_2m weather_data) then
       alert <- _check_temperature_high self weather_data ;;
       let alerts := append_if alerts alert in
       alert <- _check_temperature_low self weather_data ;;
       ret (append_if alerts alert)
     else ret alerts) ;;
  alerts <-
    (if is_some (WeatherData.rain weather_data) then
       alert <- _check_heavy_rain self weather_data ;;
       ret (append_if alerts alert)
     else ret alerts) ;;
  alerts <-
    (if is_some (WeatherData.windspeed_10m weather_data) then
       alert <- _check_strong_wind self weather_data ;;
       ret (append_if alerts alert)
     else ret alerts) ;;
  alerts <-
    (if is_some (WeatherData.relativehumidity_2m weather_data) then
       alert <- _check_high_humidity self weather_data ;;
       ret (append_if alerts alert)
     else ret alerts) ;;
  ret alerts.

(** The filter of lines 89 to 96: an active alert of the same location and
    type that started at or after [cutoff]. *)
Definition similar_active (alert : Alert.t) (cutoff : Z) (row : Alert.t) : bool :=
  (Alert.location_id row =? Alert.location_id alert)
  && String.eqb (Alert.alert_type row) (Alert.alert_type alert)
  && is_true (Alert.is_active row)
  && (cutoff <=? Alert.alert_start row).

(** Lines 87 to 99: [for alert in alerts: ...].  The result tells, for each
    alert of the list, the place the session gave it, [None] for an alert
    that was not added. *)
Fixpoint save_alerts (alerts : list Alert.t) : Comp World (list (option nat)) :=
  match alerts with
  | [] => ret []
  | alert :: rest =>
      now <- with_clock datetime_now ;;
      cutoff <- datetime_sub now (timedelta_hours 24) ;;
      existing_alert <- Session.first (similar_active alert cutoff) ;;
      place <- (if is_some existing_alert then ret None
                else place <- Session.add alert ;; ret (Some place)) ;;
      places <- save_alerts rest ;;
      ret (place :: places)
  end.

(** The objects of the list [alerts] after a flush: an object that is in the
    session has the values of its row, the others are as they were built. *)
Fixpoint refreshed (flushed : list Alert.t) (alerts : list Alert.t)
  (places : list (option nat)) : list Alert.t :=
  match alerts, places with
  | alert :: rest, Some place :: places' =>
      nth place flushed alert :: refreshed flushed rest places'
  | alert :: rest, None :: places' => alert :: refreshed flushed rest places'
  | _, _ => alerts
  end.

(** [evaluate_weather_data]: the candidates are built (lines 54 to 84), then
    the [try] block goes on with the duplicate checks and the commit (lines
    87 to 103); its handler logs and rolls back (lines 105 to 107), and the
    list [alerts] is returned in either case (line 109).  The list holds the
    objects that were handed to the session: after the commit the caller
    reads an inserted object with the [id], [is_active] and [created_at] of
    its row; an object that was not added, or whose session was rolled back,
    is as it was built. *)
Definition evaluate_weather_data (self : AlertService) (weather_data : WeatherData.t)
  : Comp World (list Alert.t) :=
  alerts <- with_clock (candidate_alerts self weather_data) ;;
  alerts <-
    try_except
      (places <- save_alerts alerts ;;
       match alerts with
       | [] => ret alerts
       | _ :: _ =>
           flushed <- Session.commit ;;
           logger (log_info "Generated {} alerts for location {}"
                     [Z.of_nat (List.length alerts);
                      WeatherData.location_id weather_data]) ;;
           ret (refreshed flushed alerts places)
       end)
      (fun e =>
         logger (log_error "Error evaluating weather data for alerts" e) ;;
         Session.rollback ;;
         ret alerts) ;;
  ret alerts.

(** Python truth value of an [Optional[int]]: [None] and [0] are false. *)
Definition truthy (n : option Z) : bool :=
  match n with
  | Some v => negb (v =? 0)
  | None => false
  end.

Definition get_active_alerts (self : AlertService) (location_id : option Z)
  : Comp World (list Alert.t) :=
  try_except
    (let query := fun a => is_true (Alert.is_active a) in
     let query :=
       if truthy location_id then
         fun a => query a && (match location_id with
                              | Some l => Alert.location_id a =? l
                              | None => false
                              end)
       else query in
     Session.all_by_start_desc query)
    (fun e =>
       logger (log_error "Error getting active alerts" e) ;;
       ret []).

Definition deactivate_alert (self : AlertService) (alert_id : Z) : Comp World bool :=
  try_except
    (alert <- Session.first (fun a => match Alert.id a with
                                      | Some i => i =? alert_id
                                      | None => false
                                      end) ;;
     match alert with
     | Some alert =>
         now <- with_clock datetime_now ;;
         Session.modified (Alert.deactivated now alert) ;;
         Session.commit ;;
         ret true
     | None => ret false
     end)
    (fun e =>
       logger (log_error "Error deactivating alert" e) ;;
       Session.rollback ;;
       ret false).

(** schemas.py *)
Record AlertStatistics : Type := {
  total_alerts : nat;
  active_alerts : nat;
  alerts_by_type : list (string * nat);
  alerts_by_risk_level : list (RiskLevel * nat);
  most_affected_location : option Location.t
}.

Definition get_alert_statistics (self : AlertService) (days : Z)
  : Comp World AlertStatistics :=
  try_except
    (now <- with_clock datetime_now ;;
     delta <- timedelta days ;;
     cutoff_date <- datetime_sub now delta ;;
     let recent := fun a => at_or_after (Alert.created_at a) cutoff_date in
     total_alerts <- Session.count recent ;;
     active_alerts <- Session.count (fun a => is_true (Alert.is_active a) && recent a) ;;
     alerts_by_type <- Session.count_by String.eqb Alert.alert_type recent ;;
     alerts_by_risk <- Session.count_by RiskLevel_eqb Alert.risk_level recent ;;
     most_affected_query <- Session.first_location_count recent ;;
     let most_affected_location :=
       match most_affected_query with
       | Some row => Some (fst row)
       | None => None
       end in
     ret {| total_alerts := total_alerts;
            active_alerts := active_alerts;
            alerts_by_type := alerts_by_type;
            alerts_by_risk_level := alerts_by_risk;
            most_affected_location := most_affected_location |})
    (fun e =>
       logger (log_error "Error getting alert statistics" e) ;;
       ret {| total_alerts := 0;
              active_alerts := 0;
              alerts_by_type := [];
              alerts_by_risk_level := [];
              most_affected_location := None |}).

(** ** routers/admin.py *)

Module admin.
Record APIResponse : Type := {
  success : bool;
  message : Text
}.

(** PATCH /alerts/{alert_id}/deactivate *)
Definition deactivate_alert (alert_id : Z) : Comp World APIResponse :=
  fun w =>
    match
      (success <- deactivate_alert alert_service alert_id ;;
       if success then
         ret {| success := true;
                message := FmtInt "Alerta " alert_id " desactivada exitosamente" |}
       else
         raise (HTTPException 404 "Alerta no encontrada")) w
    with
    | (Return r, w') => (Return r, w')
    | (Raise (HTTPException status_code detail), w') =>
        (Raise (HTTPException status_code detail), w')
    | (Raise e, w') =>
        (logger (log_error "Error desactivando alerta" e) ;;
         raise (HTTPException 500 "Error interno del servidor")) w'
    end.
End admin.

(** ** Notions used in the statements *)

(** The clock after [n] more readings. *)
Definition advance (n : nat) (c : Clock) : Clock :=
  {| readings := readings c; reads := (n + reads c)%nat |}.

(** The outcome of a computation, as an optional value. *)
Definition returned {A} (o : Outcome A) : option A :=
  match o with
  | Return a => Some a
  | Raise _ => None
  end.

(** The closed set of alert types of the engine, each with its check, the
    metric it reads and its table of thresholds. *)
Inductive AlertKind : Type :=
| high_temperature | low_temperature | heavy_rain | strong_wind | high_humidity.

Inductive Polarity : Type := high_is_bad | low_is_bad.

Definition polarity (k : AlertKind) : Polarity :=
  match k with
  | low_temperature => low_is_bad
  | _ => high_is_bad
  end.

Definition check (k : AlertKind)
  : AlertService -> WeatherData.t -> Comp Clock (option Alert.t) :=
  match k with
  | high_temperature => _check_temperature_high
  | low_temperature => _check_temperature_low
  | heavy_rain => _check_heavy_rain
  | strong_wind => _check_strong_wind
  | high_humidity => _check_high_humidity
  end.

Definition metric (k : AlertKind) (weather_data : WeatherData.t) : option float :=
  match k with
  | high_temperature | low_temperature => WeatherData.temperature_2m weather_data
  | heavy_rain => WeatherData.rain weather_data
  | strong_wind => WeatherData.windspeed_10m weather_data
  | high_humidity => WeatherData.relativehumidity_2m weather_data
  end.

Definition table (k : AlertKind) (self : AlertService) : Thresholds :=
  match k with
  | high_temperature => temperatura_alta (thresholds self)
  | low_temperature => temperatura_baja (thresholds self)
  | heavy_rain => lluvia_intensa (thresholds self)
  | strong_wind => viento_fuerte (thresholds self)
  | high_humidity => humedad_alta (thresholds self)
  end.

(** The boundary condition of a tier: value >= threshold when high is bad,
    value <= threshold when low is bad. *)
Definition boundary_holds (p : Polarity) (value threshold : float) : bool :=
  match p with
  | high_is_bad => float_ge value threshold
  | low_is_bad => float_le value threshold
  end.

Definition most_severe_first : list RiskLevel := [Critico; Alto; Medio; Bajo].

(** The tier the specification selects: the first tier, from the most severe
    to the least severe, whose boundary condition holds. *)
Definition selected_tier (p : Polarity) (t : Thresholds) (value : float) : option RiskLevel :=
  find (fun tier => boundary_holds p value (t tier)) most_severe_first.

(** An observation with one metric, for the examples. *)
Definition reading_of (location : Z) (timestamp : Z) (temperature : option float)
  : WeatherData.t :=
  {| WeatherData.id := Some 7;
     WeatherData.location_id := location;
     WeatherData.time := timestamp;
     WeatherData.temperature_2m := temperature;
     WeatherData.relativehumidity_2m := None;
     WeatherData.rain := None;
     WeatherData.windspeed_10m := None |}.

(** A clock that starts at [t0] and moves one second between two readings. *)
Definition clock_from (t0 : Z) : Clock :=
  {| readings := fun k => t0 + 1000000 * Z.of_nat k; reads := 0 |}.

(** A clock that starts at [t0], moves one second between two readings and
    stands still after a thousand readings. *)
Definition bounded_clock (t0 : Z) : Clock :=
  {| readings := fun k => t0 + 1000000 * Z.of_nat (Nat.min k 1000); reads := 0 |}.

(** The alert type each check writes. *)
Definition type_name (k : AlertKind) : string :=
  match k with
  | high_temperature => "temperatura_alta"
  | low_temperature => "temperatura_baja"
  | heavy_rain => "lluvia_intensa"
  | strong_wind => "viento_fuerte"
  | high_humidity => "humedad_alta"
  end.

Definition all_kinds : list AlertKind :=
  [high_temperature; low_temperature; heavy_rain; strong_wind; high_humidity].

(** The same alert with another start timestamp. *)
Definition restarted (t : Z) (a : Alert.t) : Alert.t :=
  {| Alert.id := Alert.id a;
     Alert.weather_data_id := Alert.weather_data_id a;
     Alert.location_id := Alert.location_id a;
     Alert.alert_type := Alert.alert_type a;
     Alert.risk_level := Alert.risk_level a;
     Alert.severity := Alert.severity a;
     Alert.threshold_value := Alert.threshold_value a;
     Alert.current_value := Alert.current_value a;
     Alert.alert_start := t;
     Alert.alert_end := Alert.alert_end a;
     Alert.is_active := Alert.is_active a;
     Alert.description := Alert.description a;
     Alert.recommendations := Alert.recommendations a;
     Alert.created_at := Alert.created_at a |}.

(** What a check builds apart from the start timestamp: its result under a
    clock that reads 0, when the metric is present. *)
Definition blueprint (k : AlertKind) (self : AlertService) (weather_data : WeatherData.t)
  : option Alert.t :=
  match metric k weather_data with
  | None => None
  | Some _ =>
      match fst (check k self weather_data (clock_from 0)) with
      | Return o => o
      | Raise _ => None
      end
  end.

Definition option_list {A} (o : option A) : list A :=
  match o with Some a => [a] | None => [] end.

Definition blueprints (self : AlertService) (weather_data : WeatherData.t) : list Alert.t :=
  flat_map (fun k => option_list (blueprint k self weather_data)) all_kinds.

(** The blueprints stamped with consecutive readings of the clock, from the
    [k]-th on. *)
Fixpoint stamp (bs : list Alert.t) (rd : nat -> Z) (k : nat) : list Alert.t :=
  match bs with
  | [] => []
  | b :: rest => restarted (rd k) b :: stamp rest rd (S k)
  end.

(** An alert object as a check of [weather_data] builds it. *)
Definition built_from (weather_data : WeatherData.t) (a : Alert.t) : Prop :=
  Alert.id a = None /\
  Alert.weather_data_id a = WeatherData.id weather_data /\
  Alert.location_id a = WeatherData.location_id weather_data /\
  Alert.alert_end a = None /\
  Alert.is_active a = None /\
  Alert.created_at a = None.

(** The session holds no pending object. *)
Definition session_clean (w : World) : Prop :=
  session_new w = [] /\ session_dirty w = [].

(** The next [n] round trips to the database succeed. *)
Definition store_up (n : nat) (w : World) : Prop :=
  forall k, (k < n)%nat -> store_fails w (k + store_calls w)%nat = false.

(** The database never fails. *)
Definition store_reliable (w : World) : Prop :=
  forall k, store_fails w k = false.

(** The suppression window of the duplicate check. *)
Definition suppression_window : Z := timedelta_hours 24.

(** A stored alert suppresses a candidate at time [now], as the filter of the
    duplicate check has it: it is active, of the same location and type, and
    its start is not earlier than 24 hours before [now].  The filter has no
    upper bound: an alert that starts after [now] suppresses as well. *)
Definition suppresses (now : Z) (candidate row : Alert.t) : Prop :=
  Alert.location_id row = Alert.location_id candidate /\
  Alert.alert_type row = Alert.alert_type candidate /\
  Alert.is_active row = Some true /\
  now - suppression_window <= Alert.alert_start row.

(** The claim's window: the start lies in the 24 hours that end at [now]. *)
Definition in_trailing_window (now : Z) (row : Alert.t) : Prop :=
  now - suppression_window <= Alert.alert_start row <= now.

(** The duplicate check as the claim words it: the stored alert is active, of
    the same location and type, and its start lies in the trailing window. *)
Definition suppresses_in_window (now : Z) (candidate row : Alert.t) : Prop :=
  Alert.location_id row = Alert.location_id candidate /\
  Alert.alert_type row = Alert.alert_type candidate /\
  Alert.is_active row = Some true /\
  in_trailing_window now row.

(** A value of the type [datetime]. *)
Definition is_datetime (t : Z) : bool :=
  (datetime_min <=? t) && (t <=? datetime_max).

(** The cutoffs of the next [n] duplicate checks exist: each of the next [n]
    readings of the clock, less 24 hours, is a [datetime]. *)
Definition cutoffs_exist (n : nat) (c : Clock) : Prop :=
  forall k, (k < n)%nat ->
            is_datetime (readings c (k + reads c)%nat - timedelta_hours 24) = true.

(** A call of [evaluate_weather_data] that builds [n] candidates goes
    through: the database answers the [n] duplicate checks and the commit, and
    the cutoff of every duplicate check exists. *)
Definition goes_through (n : nat) (w : World) : Prop :=
  store_up (S n) w /\ cutoffs_exist n (advance n (clock w)).

(** Every reading of the clock is a [datetime] from which 24 hours can be
    subtracted, as the time of a running system is. *)
Definition clock_in_range (c : Clock) : Prop :=
  forall k, is_datetime (readings c k - timedelta_hours 24) = true.

(** The candidates that pass the duplicate check against [rows], the check of
    the first one reading the clock for the [k]-th time. *)
Fixpoint admitted (rows : list Alert.t) (rd : nat -> Z) (k : nat) (candidates : list Alert.t)
  : list Alert.t :=
  match candidates with
  | [] => []
  | a :: rest =>
      (if existsb (similar_active a (rd k - timedelta_hours 24)) rows then [] else [a])
        ++ admitted rows rd (S k) rest
  end.

(** The place the session gives to each candidate that passes the duplicate
    check, [next] being the first free one. *)
Fixpoint places (rows : list Alert.t) (rd : nat -> Z) (k : nat) (next : nat)
  (candidates : list Alert.t) : list (option nat) :=
  match candidates with
  | [] => []
  | a :: rest =>
      if existsb (similar_active a (rd k - timedelta_hours 24)) rows
      then None :: places rows rd (S k) next rest
      else Some next :: places rows rd (S k) (S next) rest
  end.

(** The candidates as the caller finds them after the commit: one that passed
    the duplicate check is its row, inserted with the next key at the
    database time [t]; one that did not is as it was built. *)
Fixpoint handed_back (rows : list Alert.t) (rd : nat -> Z) (k : nat) (key : Z) (t : Z)
  (candidates : list Alert.t) : list Alert.t :=
  match candidates with
  | [] => []
  | a :: rest =>
      if existsb (similar_active a (rd k - timedelta_hours 24)) rows
      then a :: handed_back rows rd (S k) key t rest
      else Alert.inserted key t a :: handed_back rows rd (S k) (key + 1) t rest
  end.

(** The candidate was inserted as one of the rows [added]. *)
Definition persisted_in (added : list Alert.t) (candidate : Alert.t) : Prop :=
  exists key server_now, In (Alert.inserted key server_now candidate) added.

(** The active alerts of a location and type among [rows]. *)
Definition active_for (location : Z) (type : string) (rows : list Alert.t) : list Alert.t :=
  filter (fun r => (Alert.location_id r =? location)
                   && String.eqb (Alert.alert_type r) type
                   && is_true (Alert.is_active r)) rows.

(** The part of the world that only a commit changes, and the oracles. *)
Definition same_store (w w' : World) : Prop :=
  store_fails w' = store_fails w /\
  server_now w' = server_now w /\
  readings (clock w') = readings (clock w) /\
  locations w' = locations w /\
  alerts w' = alerts w /\
  alert_id_seq w' = alert_id_seq w.

(** The world after one successful turn of the loop of the duplicate checks. *)
Definition after_check (a : Alert.t) (w : World) : World :=
  {| clock := tick (clock w);
     store_fails := store_fails w;
     server_now := server_now w;
     store_calls := S (store_calls w);
     locations := locations w;
     alerts := alerts w;
     session_new :=
       session_new w
         ++ (if existsb (similar_active a
                           (readings (clock w) (reads (clock w)) - timedelta_hours 24))
                  (alerts w)
             then [] else [a]);
     session_dirty := session_dirty w;
     alert_id_seq := alert_id_seq w;
     log := log w |}.

(** The world after the turn of the loop in which the cutoff does not exist:
    the clock was read, the database was not asked. *)
Definition after_overflow (w : World) : World :=
  {| clock := tick (clock w);
     store_fails := store_fails w;
     server_now := server_now w;
     store_calls := store_calls w;
     locations := locations w;
     alerts := alerts w;
     session_new := session_new w;
     session_dirty := session_dirty w;
     alert_id_seq := alert_id_seq w;
     log := log w |}.

(** The world after the turn of the loop in which the round trip fails. *)
Definition after_failed_check (w : World) : World :=
  {| clock := tick (clock w);
     store_fails := store_fails w;
     server_now := server_now w;
     store_calls := S (store_calls w);
     locations := locations w;
     alerts := alerts w;
     session_new := session_new w;
     session_dirty := session_dirty w;
     alert_id_seq := alert_id_seq w;
     log := log w |}.

(** The message logged when [evaluate_weather_data] catches an exception. *)
Definition evaluation_error (e : Exn) : LogRecord :=
  log_error "Error evaluating weather data for alerts" e.

(** The same observation with another timestamp. *)
Definition retimed (t : Z) (wd : WeatherData.t) : WeatherData.t :=
  {| WeatherData.id := WeatherData.id wd;
     WeatherData.location_id := WeatherData.location_id wd;
     WeatherData.time := t;
     WeatherData.temperature_2m := WeatherData.temperature_2m wd;
     WeatherData.relativehumidity_2m := WeatherData.relativehumidity_2m wd;
     WeatherData.rain := WeatherData.rain wd;
     WeatherData.windspeed_10m := WeatherData.windspeed_10m wd |}.

(** How many of the alerts have a given type. *)
Definition count_type (type : string) (l : list Alert.t) : nat :=
  List.length (filter (fun a => String.eqb (Alert.alert_type a) type) l).

(** ** Example data *)

Definition location_1 : Location.t :=
  {| Location.id := 1; Location.name := "Bogota"; Location.country := "Colombia" |}.

Definition location_2 : Location.t :=
  {| Location.id := 2; Location.name := "Medellin"; Location.country := "Colombia" |}.

(** The clock of the database in the examples: 9000000 at every round trip. *)
Definition database_time : nat -> Z := fun _ => 9000000.

(** A world with the given clock, database oracle and alert rows, both
    locations, and a clean session. *)
Definition world_of (c : Clock) (fails : nat -> bool) (rows : list Alert.t) : World :=
  {| clock := c; store_fails := fails; server_now := database_time; store_calls := 0;
     locations := [location_1; location_2];
     alerts := rows; session_new := []; session_dirty := [];
     alert_id_seq := 100; log := [] |}.

Definition never : nat -> bool := fun _ => false.
Definition always : nat -> bool := fun _ => true.

(** 46.0 degrees at location 1, observed at time 0. *)
Definition hot_reading : WeatherData.t := reading_of 1 0 (Some 46.0%float).

(** An alert row of the given id, location, type, start and state. *)
Definition row_of (key location : Z) (type : string) (start : Z) (active : bool)
  (finish : option Z) : Alert.t :=
  {| Alert.id := Some key;
     Alert.weather_data_id := None;
     Alert.location_id := location;
     Alert.alert_type := type;
     Alert.risk_level := Medio;
     Alert.severity := Some warning;
     Alert.threshold_value := None;
     Alert.current_value := None;
     Alert.alert_start := start;
     Alert.alert_end := finish;
     Alert.is_active := Some active;
     Alert.description := None;
     Alert.recommendations := None;
     Alert.created_at := Some start |}.

(** An active high temperature alert of location 1 that starts an hour after
    7000000, and one that started 25 hours before 6000000. *)
Definition later_alert : Alert.t := row_of 1 1 "temperatura_alta" 3607000000 true None.
Definition earlier_alert : Alert.t :=
  row_of 2 1 "temperatura_alta" (-89994000000) true None.

(** ** The alert lifecycle *)

(** The invariant of the data model: active if and only if no end timestamp. *)
Definition lifecycle_ok (a : Alert.t) : Prop :=
  Alert.is_active a = Some true <-> Alert.alert_end a = None.

(** The two states of a stored alert. *)
Definition lifecycle_state (a : Alert.t) : Prop :=
  (Alert.is_active a = Some true /\ Alert.alert_end a = None) \/
  (Alert.is_active a = Some false /\ exists t, Alert.alert_end a = Some t).

(** One operation of the service on the world. *)
Inductive step : World -> World -> Prop :=
| step_evaluate (self : AlertService) (weather_data : WeatherData.t) (w : World) :
    step w (snd (evaluate_weather_data self weather_data w))
| step_deactivate (self : AlertService) (alert_id : Z) (w : World) :
    step w (snd (deactivate_alert self alert_id w))
| step_get_active (self : AlertService) (location_id : option Z) (w : World) :
    step w (snd (get_active_alerts self location_id w))
| step_statistics (self : AlertService) (days : Z) (w : World) :
    step w (snd (get_alert_statistics self days w)).

(** The worlds the operations reach from an empty table of alerts and a clean
    session, under any clock and any behaviour of the database. *)
Inductive reachable : World -> Prop :=
| reachable_start (w : World) :
    alerts w = [] -> session_clean w -> reachable w
| reachable_step (w w' : World) :
    reachable w -> step w w' -> reachable w'.

(** The filter of [deactivate_alert]: [Alert.id == alert_id]. *)
Definition has_id (alert_id : Z) (a : Alert.t) : bool :=
  match Alert.id a with
  | Some i => i =? alert_id
  | None => false
  end.

(** The table after the UPDATE of one modified object. *)
Definition updated (d : Alert.t) (rows : list Alert.t) : list Alert.t :=
  map (fun r => if Session.same_id r d then d else r) rows.

(** The message logged when [deactivate_alert] catches an exception. *)
Definition deactivation_error (e : Exn) : LogRecord :=
  log_error "Error deactivating alert" e.


(** The cutoff of the statistics exists: [timedelta] accepts the number of
    days, and the next reading of the clock less that many days is a
    [datetime]. *)
Definition window_exists (w : World) (days : Z) : Prop :=
  Z.abs days <= 999999999 /\
  is_datetime (readings (clock w) (reads (clock w)) - timedelta_days days) = true.




(** A stored alert, active since 5000000, with primary key 1. *)
Definition stored_alert : Alert.t := row_of 1 1 "temperatura_alta" 5000000 true None.

(** One active alert at each of the two locations. *)
Definition alert_at_1 : Alert.t := row_of 1 1 "temperatura_alta" 5000000 true None.
Definition alert_at_2 : Alert.t := row_of 2 2 "viento_fuerte" 5500000 true None.

(** A world in which the database scans location 2 before location 1, and
    each location has one alert. *)
Definition tied_world : World :=
  {| clock := clock_from 6000000; store_fails := never; server_now := database_time;
     store_calls := 0;
     locations := [location_2; location_1];
     alerts := [alert_at_1; alert_at_2]; session_new := []; session_dirty := [];
     alert_id_seq := 100; log := [] |}.

(** * Properties *)

(** ** The checks *)

Ltac unfold_checks :=
  unfold _check_temperature_high, _check_temperature_low, _check_heavy_rain,
    _check_strong_wind, _check_high_humidity, bind, operand, ret, datetime_now.

Ltac split_cascade value :=
  match goal with
  | |- context [?cmp value (?t Critico)] =>
      destruct (cmp value (t Critico));
      [| destruct (cmp value (t Alto));
         [| destruct (cmp value (t Medio));
            [| destruct (cmp value (t Bajo)) ]]]
  end.

(** A check of a present metric raises nothing, reads the clock once when it
    builds an alert, and builds its blueprint with that reading as start. *)
Lemma check_shape (k : AlertKind) (self : AlertService) (wd : WeatherData.t) (c : Clock) :
  metric k wd <> None ->
  check k self wd c
  = (Return (option_map (restarted (readings c (reads c))) (blueprint k self wd)),
     advance (List.length (option_list (blueprint k self wd))) c).
Proof.
  unfold blueprint. destruct (metric k wd) as [value|] eqn:Hm; [intros _ | congruence].
  destruct c as [rd n].
  destruct k; cbn [check metric] in *; unfold_checks; rewrite Hm;
    split_cascade value; reflexivity.
Qed.

Lemma blueprint_built (k : AlertKind) (self : AlertService) (wd : WeatherData.t) (b : Alert.t) :
  blueprint k self wd = Some b ->
  built_from wd b /\ Alert.alert_type b = type_name k.
Proof.
  unfold blueprint, built_from. destruct (metric k wd) as [value|] eqn:Hm; [| discriminate].
  destruct k; cbn [check metric] in *; unfold_checks; rewrite Hm;
    split_cascade value; cbn; intros H; inversion H; subst; cbn; repeat split; reflexivity.
Qed.

Lemma blueprint_absent (k : AlertKind) (self : AlertService) (wd : WeatherData.t) :
  metric k wd = None -> blueprint k self wd = None.
Proof. unfold blueprint. intros ->. reflexivity. Qed.

(** The candidates of an observation are its blueprints, stamped with the
    readings the clock gives while they are built. *)
Lemma candidate_alerts_shape (self : AlertService) (wd : WeatherData.t) (c : Clock) :
  candidate_alerts self wd c
  = (Return (stamp (blueprints self wd) (readings c) (reads c)),
     advance (List.length (blueprints self wd)) c).
Proof.
  unfold candidate_alerts, blueprints, all_kinds. cbn [flat_map].
  pose proof (check_shape high_temperature self wd) as H1.
  pose proof (check_shape low_temperature self wd) as H2.
  pose proof (check_shape heavy_rain self wd) as H3.
  pose proof (check_shape strong_wind self wd) as H4.
  pose proof (check_shape high_humidity self wd) as H5.
  pose proof (blueprint_absent high_temperature self wd) as A1.
  pose proof (blueprint_absent low_temperature self wd) as A2.
  pose proof (blueprint_absent heavy_rain self wd) as A3.
  pose proof (blueprint_absent strong_wind self wd) as A4.
  pose proof (blueprint_absent high_humidity self wd) as A5.
  cbn [check metric] in *.
  unfold bind, ret.
  destruct (WeatherData.temperature_2m wd); cbn [is_some]; cbv beta iota;
    [rewrite H1 by discriminate; cbv beta iota; rewrite H2 by discriminate
    | rewrite A1, A2 by reflexivity]; cbv beta iota;
    (destruct (WeatherData.rain wd); cbn [is_some]; cbv beta iota;
     [rewrite H3 by discriminate | rewrite A3 by reflexivity]); cbv beta iota;
    (destruct (WeatherData.windspeed_10m wd); cbn [is_some]; cbv beta iota;
     [rewrite H4 by discriminate | rewrite A4 by reflexivity]); cbv beta iota;
    (destruct (WeatherData.relativehumidity_2m wd); cbn [is_some]; cbv beta iota;
     [rewrite H5 by discriminate | rewrite A5 by reflexivity]); cbv beta iota;
    clear; destruct c as [rd n];
    repeat match goal with
      | |- context [blueprint ?k self wd] => destruct (blueprint k self wd)
      end;
    reflexivity.
Qed.

(** ** Tier selection *)

(** C2. For every alert type and every value of its metric, the check returns
    a candidate whose risk level is the first tier, tested critico, alto,
    medio, bajo, whose boundary condition holds (value >= threshold when high
    is bad, value <= threshold when low is bad), and no candidate when no
    boundary holds; the candidate records that tier's threshold and the value.
    With the default thresholds, a value equal to the critico threshold of a
    high-is-bad type is classified critico. *)
Theorem tier_selection_order :
  forall (k : AlertKind) (self : AlertService) (weather_data : WeatherData.t)
         (value : float) (c : Clock),
    metric k weather_data = Some value ->
    exists candidate : option Alert.t,
      fst (check k self weather_data c) = Return candidate /\
      option_map Alert.risk_level candidate
        = selected_tier (polarity k) (table k self) value /\
      (boundary_holds (polarity k) value (table k self Critico) = true ->
       option_map Alert.risk_level candidate = Some Critico) /\
      ((forall tier, boundary_holds (polarity k) value (table k self tier) = false) ->
       candidate = None) /\
      (forall a, candidate = Some a ->
         Alert.threshold_value a = Some (table k self (Alert.risk_level a)) /\
         Alert.current_value a = Some value) /\
      (polarity k = high_is_bad -> self = alert_service ->
       value = table k self Critico ->
       option_map Alert.risk_level candidate = Some Critico).
Proof.
  intros k self wd value c Hm.
  destruct k; cbn [check metric table polarity] in *;
    unfold _check_temperature_high, _check_temperature_low, _check_heavy_rain,
      _check_strong_wind, _check_high_humidity, selected_tier, most_severe_first,
      boundary_holds, bind, operand, ret, datetime_now;
    rewrite Hm; cbn [find];
    match goal with
    | |- context [?cmp value (?t Critico)] =>
        destruct (cmp value (t Critico)) eqn:Hc;
        [| destruct (cmp value (t Alto)) eqn:Ha;
           [| destruct (cmp value (t Medio)) eqn:Hme;
              [| destruct (cmp value (t Bajo)) eqn:Hb ]]]
    end;
    eexists; (split; [reflexivity|]); cbn [option_map Alert.risk_level
      Alert.threshold_value Alert.current_value];
    repeat split; try reflexivity; try discriminate; intros;
    try match goal with
      | H : Some _ = Some _ |- _ => injection H as <-; cbn; try reflexivity
      | H : forall tier : RiskLevel, _ = false |- _ =>
          pose proof (H Critico); pose proof (H Alto); pose proof (H Medio);
          pose proof (H Bajo); congruence
      end;
    try (subst; vm_compute in Hc; discriminate).
Qed.

Lemma witness_of_tier_selection_order :
  metric high_temperature (reading_of 1 0 (Some 45.0%float)) = Some 45.0%float /\
  exists candidate,
    fst (check high_temperature alert_service (reading_of 1 0 (Some 45.0%float))
           (clock_from 0)) = Return candidate /\
    option_map Alert.risk_level candidate = Some Critico.
Proof.
  split; [reflexivity|].
  destruct (tier_selection_order high_temperature alert_service
              (reading_of 1 0 (Some 45.0%float)) 45.0%float (clock_from 0) eq_refl)
    as (candidate & H1 & H2 & _).
  exists candidate. split; [exact H1 | rewrite H2; reflexivity].
Defined.

(** The scenarios of the checks, with the default thresholds. *)
Example low_temperature_at_zero_is_medio :
  option_map (option_map Alert.risk_level)
    (returned (fst (_check_temperature_low alert_service
                      (reading_of 1 0 (Some 0.0%float)) (clock_from 0))))
  = Some (Some Medio).
Proof. reflexivity. Qed.

Example low_temperature_minus_twelve_is_critico :
  option_map (option_map Alert.risk_level)
    (returned (fst (_check_temperature_low alert_service
                      (reading_of 1 0 (Some (-12.0)%float)) (clock_from 0))))
  = Some (Some Critico).
Proof. reflexivity. Qed.

Example mild_temperature_gives_no_candidate :
  fst (candidate_alerts alert_service (reading_of 1 0 (Some 20.0%float)) (clock_from 0))
  = Return [].
Proof. reflexivity. Qed.

Example nan_gives_no_candidate :
  fst (candidate_alerts alert_service (reading_of 1 0 (Some nan)) (clock_from 0))
  = Return [].
Proof. reflexivity. Qed.

(** ** The candidates of an observation *)

Lemma blueprints_built (self : AlertService) (wd : WeatherData.t) :
  Forall (built_from wd) (blueprints self wd).
Proof.
  unfold blueprints. apply Forall_flat_map, Forall_forall. intros k _.
  destruct (blueprint k self wd) as [b|] eqn:E; cbn; [| constructor].
  constructor; [| constructor]. exact (proj1 (blueprint_built k self wd b E)).
Qed.

Lemma blueprints_types_nodup (self : AlertService) (wd : WeatherData.t) :
  NoDup (map Alert.alert_type (blueprints self wd)).
Proof.
  unfold blueprints, all_kinds. cbn [flat_map].
  repeat match goal with
    | |- context [blueprint ?k self wd] =>
        let E := fresh "E" in
        destruct (blueprint k self wd) eqn:E;
        [apply blueprint_built in E; destruct E as [_ E]; cbn in E |]
    end;
    cbn; repeat match goal with H : Alert.alert_type _ = _ |- _ => rewrite H; clear H end;
    repeat constructor; cbn; intuition discriminate.
Qed.

Lemma stamp_length (bs : list Alert.t) (rd : nat -> Z) (k : nat) :
  List.length (stamp bs rd k) = List.length bs.
Proof. revert k. induction bs; intros; cbn; [reflexivity | now rewrite IHbs]. Qed.

Lemma stamp_types (bs : list Alert.t) (rd : nat -> Z) (k : nat) :
  map Alert.alert_type (stamp bs rd k) = map Alert.alert_type bs.
Proof. revert k. induction bs; intros; cbn; [reflexivity | now rewrite IHbs]. Qed.

Lemma stamp_nth (bs : list Alert.t) (rd : nat -> Z) (k i : nat) (a : Alert.t) :
  nth_error (stamp bs rd k) i = Some a ->
  exists b, nth_error bs i = Some b /\ a = restarted (rd (i + k)%nat) b.
Proof.
  revert k i. induction bs as [|b bs IH]; intros k i H.
  - destruct i; discriminate.
  - destruct i as [|i]; cbn in H.
    + injection H as <-. exists b. split; reflexivity.
    + apply IH in H. destruct H as (b' & Hb & ->). exists b'. split; [exact Hb|].
      now rewrite Nat.add_succ_r.
Qed.

Lemma stamp_built (wd : WeatherData.t) (bs : list Alert.t) (rd : nat -> Z) (k : nat) :
  Forall (built_from wd) bs -> Forall (built_from wd) (stamp bs rd k).
Proof.
  intros H. revert k. induction H; intros k; cbn; constructor; auto.
Qed.

(** The first part of [evaluate_weather_data] raises nothing. *)
Lemma candidate_alerts_returns (self : AlertService) (wd : WeatherData.t) (c : Clock) :
  exists alerts, fst (candidate_alerts self wd c) = Return alerts.
Proof. rewrite candidate_alerts_shape. eexists. reflexivity. Qed.

(** ** The session *)

Lemma hd_error_filter {A} (p : A -> bool) (l : list A) :
  is_some (hd_error (filter p l)) = existsb p l.
Proof.
  induction l as [|x l IH]; cbn; [reflexivity|].
  destruct (p x); cbn; [reflexivity | exact IH].
Qed.

Lemma advance_tick (n : nat) (c : Clock) : advance n (tick c) = advance (S n) c.
Proof. unfold advance, tick. cbn. f_equal. lia. Qed.


Ltac simpl_world :=
  cbn [clock store_fails server_now store_calls locations alerts session_new session_dirty
         alert_id_seq log fst snd].

Lemma save_alerts_step (a : Alert.t) (rest : list Alert.t) (w : World) :
  save_alerts (a :: rest) w
  = if is_datetime (readings (clock w) (reads (clock w)) - timedelta_hours 24) then
      if store_fails w (store_calls w)
      then (Raise OperationalError, after_failed_check w)
      else
        match save_alerts rest (after_check a w) with
        | (Return places, w') =>
            (Return
               ((if existsb (similar_active a
                               (readings (clock w) (reads (clock w)) - timedelta_hours 24))
                      (alerts w)
                 then None else Some (List.length (session_new w))) :: places),
             w')
        | (Raise e, w') => (Raise e, w')
        end
    else (Raise OverflowError, after_overflow w).
Proof.
  cbn [save_alerts]. unfold bind at 1. unfold with_clock, datetime_now at 1.
  cbv beta iota. unfold bind at 1. unfold datetime_sub at 1. unfold is_datetime.
  destruct ((datetime_min <=? _) && (_ <=? datetime_max)); [| reflexivity].
  unfold ret at 1. unfold bind at 1. unfold Session.first at 1. unfold bind at 1.
  unfold Session.round_trip at 1. cbn [store_fails store_calls].
  destruct (store_fails w (store_calls w)); [reflexivity|].
  unfold gets at 1. unfold Session.query. cbn [alerts]. unfold bind at 1.
  rewrite <- (hd_error_filter
                (similar_active a (readings (clock w) (reads (clock w)) - timedelta_hours 24))
                (alerts w)).
  unfold after_check.
  rewrite <- (hd_error_filter
                (similar_active a (readings (clock w) (reads (clock w)) - timedelta_hours 24))
                (alerts w)).
  destruct (hd_error _) as [row|]; cbn [is_some].
  - unfold ret at 1. unfold bind at 1. rewrite app_nil_r. simpl_world.
    match goal with |- context [save_alerts rest ?s] => destruct (save_alerts rest s) as [[ps|e] w'] end;
      reflexivity.
  - unfold bind at 1. unfold Session.add at 1. unfold bind at 1. unfold gets at 1.
    unfold bind at 1. unfold modify at 1. unfold ret at 1. unfold ret at 1.
    unfold bind at 1. simpl_world.
    match goal with |- context [save_alerts rest ?s] => destruct (save_alerts rest s) as [[ps|e] w'] end;
      reflexivity.
Qed.

Lemma cutoffs_exist_tick (n : nat) (c : Clock) :
  cutoffs_exist (S n) c -> cutoffs_exist n (tick c).
Proof.
  intros H k Hk. cbn [tick readings reads]. rewrite <- Nat.add_succ_comm.
  apply H. lia.
Qed.

Lemma save_alerts_up (candidates : list Alert.t) (w : World) :
  store_up (List.length candidates) w ->
  cutoffs_exist (List.length candidates) (clock w) ->
  save_alerts candidates w
  = (Return (places (alerts w) (readings (clock w)) (reads (clock w))
               (List.length (session_new w)) candidates),
     {| clock := advance (List.length candidates) (clock w);
        store_fails := store_fails w;
        server_now := server_now w;
        store_calls := List.length candidates + store_calls w;
        locations := locations w;
        alerts := alerts w;
        session_new :=
          session_new w
            ++ admitted (alerts w) (readings (clock w)) (reads (clock w)) candidates;
        session_dirty := session_dirty w;
        alert_id_seq := alert_id_seq w;
        log := log w |}).
Proof.
  revert w. induction candidates as [|a rest IH]; intros w Hup Hcut.
  - destruct w as [[rd n] ? ? ? ? ? ? ? ? ?]. cbn. unfold ret, advance. cbn.
    now rewrite app_nil_r.
  - rewrite save_alerts_step.
    pose proof (Hup 0%nat ltac:(cbn; lia)) as H0. cbn [Nat.add] in H0.
    pose proof (Hcut 0%nat ltac:(cbn; lia)) as C0. cbn [Nat.add] in C0.
    rewrite C0, H0, IH.
    + unfold after_check. simpl_world.
      cbn [admitted places readings reads tick List.length].
      rewrite advance_tick, <- app_assoc.
      destruct (existsb _ (alerts w)); cbn [app].
      * rewrite app_nil_r, Nat.add_succ_r. reflexivity.
      * rewrite length_app. cbn [List.length]. rewrite Nat.add_1_r, Nat.add_succ_r.
        reflexivity.
    + intros k Hk. unfold after_check. simpl_world.
      rewrite <- Nat.add_succ_comm. apply Hup. cbn. lia.
    + unfold after_check. simpl_world. now apply cutoffs_exist_tick.
Qed.

(** Whatever the database and the clock do, the loop of the duplicate checks
    writes nothing to the tables or to the log. *)
Lemma save_alerts_frame (candidates : list Alert.t) (w : World) :
  same_store w (snd (save_alerts candidates w)) /\
  log (snd (save_alerts candidates w)) = log w /\
  session_dirty (snd (save_alerts candidates w)) = session_dirty w.
Proof.
  revert w. induction candidates as [|a rest IH]; intros w.
  - cbn. repeat split.
  - rewrite save_alerts_step.
    destruct (is_datetime _); [| cbn; repeat split].
    destruct (store_fails w (store_calls w)); [cbn; repeat split|].
    destruct (IH (after_check a w)) as (S1 & S2 & S3).
    destruct (save_alerts rest (after_check a w)) as [[ps|e] w']; cbn [fst snd] in *;
      repeat split; try apply S1; assumption.
Qed.

(** The loop raises when a cutoff does not exist or a round trip fails. *)
Lemma save_alerts_raises (candidates : list Alert.t) (w : World) :
  ~ (store_up (List.length candidates) w /\
     cutoffs_exist (List.length candidates) (clock w)) ->
  exists e,
    fst (save_alerts candidates w) = Raise e /\
    (cutoffs_exist (List.length candidates) (clock w) -> e = OperationalError).
Proof.
  revert w. induction candidates as [|a rest IH]; intros w Hno.
  - exfalso. apply Hno. split; intros k Hk; cbn in Hk; lia.
  - rewrite save_alerts_step.
    destruct (is_datetime _) eqn:C0.
    2:{ exists OverflowError. split; [reflexivity|]. intros Hcut.
        pose proof (Hcut 0%nat ltac:(cbn; lia)) as C. cbn [Nat.add] in C. congruence. }
    destruct (store_fails w (store_calls w)) eqn:H0.
    { exists OperationalError. split; reflexivity. }
    destruct (IH (after_check a w)) as (e & He & Hcase).
    + intros [Hup Hcut]. apply Hno. split.
      * intros [|k] Hk; [exact H0|].
        pose proof (Hup k ltac:(cbn in Hk; lia)) as H. unfold after_check in H.
        cbn [store_fails store_calls] in H. rewrite Nat.add_succ_r in H. exact H.
      * intros [|k] Hk; [exact C0|].
        pose proof (Hcut k ltac:(cbn in Hk; lia)) as H. unfold after_check in H.
        cbn [clock tick readings reads] in H. rewrite Nat.add_succ_r in H. exact H.
    + exists e. destruct (save_alerts rest (after_check a w)) as [[ps|e'] w'];
        cbn [fst] in *; [discriminate|].
      split; [exact He|]. intros Hcut. apply Hcase.
      unfold after_check. simpl_world. now apply cutoffs_exist_tick.
Qed.

Lemma store_up_dec (n : nat) (w : World) :
  store_up n w \/
  exists k, (k < n)%nat /\ store_fails w (k + store_calls w)%nat = true.
Proof.
  induction n as [|n IH].
  - left. intros k Hk. lia.
  - destruct IH as [IH | (k & Hk & Hf)].
    + destruct (store_fails w (n + store_calls w)%nat) eqn:E.
      * right. exists n. split; [lia | exact E].
      * left. intros k Hk. destruct (Nat.eq_dec k n) as [-> | Hne]; [exact E|].
        apply IH. lia.
    + right. exists k. split; [lia | exact Hf].
Qed.

Lemma cutoffs_exist_dec (n : nat) (c : Clock) :
  cutoffs_exist n c \/ ~ cutoffs_exist n c.
Proof.
  induction n as [|n IH].
  - left. intros k Hk. lia.
  - destruct IH as [IH | IH].
    + destruct (is_datetime (readings c (n + reads c)%nat - timedelta_hours 24)) eqn:E.
      * left. intros k Hk. destruct (Nat.eq_dec k n) as [-> | Hne]; [exact E|].
        apply IH. lia.
      * right. intros H. rewrite (H n) in E by lia. discriminate.
    + right. intros H. apply IH. intros k Hk. apply H. lia.
Qed.

Lemma store_reliable_up (n : nat) (w : World) : store_reliable w -> store_up n w.
Proof. intros H k _. apply H. Qed.

Lemma clock_in_range_cutoffs (n : nat) (c : Clock) :
  clock_in_range c -> cutoffs_exist n c.
Proof. intros H k _. apply H. Qed.

Lemma commit_run (w : World) :
  Session.commit w
  = if store_fails w (store_calls w)
    then (Raise OperationalError,
          {| clock := clock w; store_fails := store_fails w; server_now := server_now w;
             store_calls := S (store_calls w);
             locations := locations w; alerts := alerts w;
             session_new := session_new w; session_dirty := session_dirty w;
             alert_id_seq := alert_id_seq w; log := log w |})
    else (Return (Session.insert_rows (alert_id_seq w) (server_now w (store_calls w))
                    (session_new w)),
          {| clock := clock w; store_fails := store_fails w; server_now := server_now w;
             store_calls := S (store_calls w);
             locations := locations w;
             alerts := Session.update_rows (session_dirty w) (alerts w)
                         ++ Session.insert_rows (alert_id_seq w)
                              (server_now w (store_calls w)) (session_new w);
             session_new := []; session_dirty := [];
             alert_id_seq := alert_id_seq w + Z.of_nat (List.length (session_new w));
             log := log w |}).
Proof.
  unfold Session.commit, bind, Session.round_trip, gets, modify, ret.
  cbn. destruct (store_fails w (store_calls w)); reflexivity.
Qed.

(** ** evaluate_weather_data *)

Lemma match_nonempty {A B} (l : list A) (x y : B) :
  l <> [] -> match l with [] => x | _ :: _ => y end = y.
Proof. destruct l; [congruence | reflexivity]. Qed.

Lemma stamp_nonempty (bs : list Alert.t) (rd : nat -> Z) (k : nat) :
  bs <> [] -> stamp bs rd k <> [].
Proof. destruct bs; [congruence | discriminate]. Qed.

(** The object in a place of the session, after the flush. *)
Lemma nth_insert_rows (key t : Z) (pending : list Alert.t) (a : Alert.t)
  (rest : list Alert.t) (d : Alert.t) :
  nth (List.length pending) (Session.insert_rows key t (pending ++ a :: rest)) d
  = Alert.inserted (key + Z.of_nat (List.length pending)) t a.
Proof.
  revert key. induction pending as [|p pending IH]; intros key.
  - cbn. now rewrite Z.add_0_r.
  - cbn [app Session.insert_rows List.length nth]. rewrite IH. f_equal. lia.
Qed.

(** Reading the candidates back from their places gives [handed_back]. *)
Lemma refreshed_places (rows : list Alert.t) (rd : nat -> Z) (key t : Z)
  (candidates : list Alert.t) (k : nat) (pending : list Alert.t) :
  refreshed (Session.insert_rows key t (pending ++ admitted rows rd k candidates))
    candidates (places rows rd k (List.length pending) candidates)
  = handed_back rows rd k (key + Z.of_nat (List.length pending)) t candidates.
Proof.
  revert k pending. induction candidates as [|a rest IH]; intros k pending.
  - reflexivity.
  - cbn [admitted places handed_back].
    destruct (existsb _ rows); cbn [app refreshed].
    + now rewrite IH.
    + rewrite nth_insert_rows. f_equal.
      replace (pending ++ a :: admitted rows rd (S k) rest)%list
        with ((pending ++ [a]) ++ admitted rows rd (S k) rest)%list
        by now rewrite <- app_assoc.
      replace (S (List.length pending)) with (List.length (pending ++ [a]))
        by (rewrite length_app; cbn; lia).
      rewrite IH. f_equal. rewrite length_app. cbn. lia.
Qed.

(** No candidate: nothing is asked of the database. *)
Lemma evaluate_none (self : AlertService) (wd : WeatherData.t) (w : World) :
  blueprints self wd = [] ->
  evaluate_weather_data self wd w
  = (Return [],
     {| clock := advance 0 (clock w); store_fails := store_fails w;
        server_now := server_now w;
        store_calls := store_calls w; locations := locations w; alerts := alerts w;
        session_new := session_new w; session_dirty := session_dirty w;
        alert_id_seq := alert_id_seq w; log := log w |}).
Proof.
  intros E. unfold evaluate_weather_data. unfold bind at 1. unfold with_clock at 1.
  rewrite candidate_alerts_shape, E. reflexivity.
Qed.

Lemma goes_through_dec (n : nat) (w : World) : goes_through n w \/ ~ goes_through n w.
Proof.
  unfold goes_through.
  destruct (store_up_dec (S n) w) as [Hup | (k & Hk & Hf)].
  - destruct (cutoffs_exist_dec n (advance n (clock w))) as [Hc | Hc].
    + left. now split.
    + right. intros [_ H]. now apply Hc.
  - right. intros [H _]. rewrite (H k Hk) in Hf. discriminate.
Qed.

(** Some candidates, and the call goes through: the candidates that pass the
    duplicate check are inserted, and the caller finds them with the values
    of their rows. *)
Lemma evaluate_up (self : AlertService) (wd : WeatherData.t) (w : World) :
  let n := List.length (blueprints self wd) in
  let candidates := stamp (blueprints self wd) (readings (clock w)) (reads (clock w)) in
  let passed := admitted (alerts w) (readings (clock w)) (n + reads (clock w)) candidates in
  let t := server_now w (n + store_calls w)%nat in
  blueprints self wd <> [] ->
  goes_through n w ->
  evaluate_weather_data self wd w
  = (Return (handed_back (alerts w) (readings (clock w)) (n + reads (clock w))
               (alert_id_seq w + Z.of_nat (List.length (session_new w))) t candidates),
     {| clock := advance (n + n) (clock w);
        store_fails := store_fails w;
        server_now := server_now w;
        store_calls := S (n + store_calls w);
        locations := locations w;
        alerts := Session.update_rows (session_dirty w) (alerts w)
                    ++ Session.insert_rows (alert_id_seq w) t (session_new w ++ passed);
        session_new := []; session_dirty := [];
        alert_id_seq := alert_id_seq w + Z.of_nat (List.length (session_new w ++ passed));
        log := log w ++ [log_info "Generated {} alerts for location {}"
                           [Z.of_nat n; WeatherData.location_id wd]] |}).
Proof.
  intros n candidates passed t Hne [Hup Hcut].
  unfold evaluate_weather_data. unfold bind at 1. unfold with_clock at 1.
  rewrite candidate_alerts_shape. cbv beta iota. fold n. fold candidates.
  assert (Hlen : List.length candidates = n) by apply stamp_length.
  unfold bind at 1. unfold try_except. unfold bind at 1.
  rewrite save_alerts_up.
  2:{ intros k Hk. simpl_world. apply Hup. lia. }
  2:{ simpl_world. rewrite Hlen. exact Hcut. }
  simpl_world. rewrite Hlen.
  rewrite match_nonempty by (apply stamp_nonempty, Hne).
  unfold bind at 1. rewrite commit_run. simpl_world.
  rewrite (Hup n) by lia.
  unfold bind at 1. unfold logger, modify. unfold ret.
  cbn [advance readings reads].
  rewrite refreshed_places. simpl_world.
  unfold advance. cbn [readings reads]. rewrite Nat.add_assoc. reflexivity.
Qed.

(** Some candidates, and the call does not go through (a cutoff that does not
    exist, a duplicate check or the commit that fails): the exception is
    caught and logged, the session is rolled back, and the candidates are
    returned as they were built. *)
Lemma evaluate_down (self : AlertService) (wd : WeatherData.t) (w : World) :
  let n := List.length (blueprints self wd) in
  blueprints self wd <> [] ->
  ~ goes_through n w ->
  exists e w',
    evaluate_weather_data self wd w
    = (Return (stamp (blueprints self wd) (readings (clock w)) (reads (clock w))), w') /\
    same_store w w' /\
    session_new w' = [] /\ session_dirty w' = [] /\
    log w' = (log w ++ [evaluation_error e])%list /\
    (cutoffs_exist n (advance n (clock w)) -> e = OperationalError).
Proof.
  intros n Hne Hno.
  unfold evaluate_weather_data. unfold bind at 1. unfold with_clock at 1.
  rewrite candidate_alerts_shape. cbv beta iota. fold n.
  set (candidates := stamp (blueprints self wd) (readings (clock w)) (reads (clock w))).
  assert (Hlen : List.length candidates = n) by apply stamp_length.
  set (w1 := {| clock := advance n (clock w); store_fails := store_fails w;
                server_now := server_now w;
                store_calls := store_calls w; locations := locations w;
                alerts := alerts w; session_new := session_new w;
                session_dirty := session_dirty w; alert_id_seq := alert_id_seq w;
                log := log w |}).
  unfold bind at 1. unfold try_except. unfold bind at 1.
  destruct (store_up_dec n w1) as [Hup | Hdown];
    [destruct (cutoffs_exist_dec n (clock w1)) as [Hcut | Hcut]|].
  - (* the checks pass, the commit fails *)
    assert (Hf : store_fails w (n + store_calls w)%nat = true).
    { destruct (store_fails w (n + store_calls w)%nat) eqn:E; [reflexivity|].
      exfalso. apply Hno. split; [| exact Hcut].
      intros k Hk. destruct (Nat.eq_dec k n) as [-> | Hkn]; [exact E|].
      apply (Hup k). lia. }
    rewrite save_alerts_up by (rewrite Hlen; assumption).
    rewrite match_nonempty by (apply stamp_nonempty, Hne).
    unfold bind at 1. rewrite commit_run. simpl_world. cbn [w1 store_fails store_calls].
    rewrite Hlen, Hf.
    unfold bind, logger, modify, Session.rollback, ret. cbn.
    exists OperationalError. eexists. split; [reflexivity|]. repeat split.
  - (* a cutoff does not exist *)
    destruct (save_alerts_raises candidates w1) as (e & Hr & He).
    { rewrite Hlen. intros [_ H]. now apply Hcut. }
    destruct (save_alerts_frame candidates w1) as (S1 & S2 & _).
    destruct (save_alerts candidates w1) as [r w2]. cbn [fst snd] in *. subst r.
    unfold bind, logger, modify, Session.rollback, ret. cbn.
    exists e. eexists. split; [reflexivity|].
    destruct S1 as (A1 & A2 & A3 & A4 & A5 & A6). cbn in *.
    repeat split; cbn; try assumption; [now rewrite S2|].
    intros H. apply He. now rewrite Hlen.
  - (* a duplicate check fails *)
    destruct (save_alerts_raises candidates w1) as (e & Hr & He).
    { rewrite Hlen. intros [H _]. destruct Hdown as (k & Hk & Hf).
      rewrite (H k Hk) in Hf. discriminate. }
    destruct (save_alerts_frame candidates w1) as (S1 & S2 & _).
    destruct (save_alerts candidates w1) as [r w2]. cbn [fst snd] in *. subst r.
    unfold bind, logger, modify, Session.rollback, ret. cbn.
    exists e. eexists. split; [reflexivity|].
    destruct S1 as (A1 & A2 & A3 & A4 & A5 & A6). cbn in *.
    repeat split; cbn; try assumption; [now rewrite S2|].
    intros H. apply He. now rewrite Hlen.
Qed.

(** ** What the caller receives *)

Lemma handed_back_length (rows : list Alert.t) (rd : nat -> Z) (t : Z)
  (candidates : list Alert.t) (k : nat) (key : Z) :
  List.length (handed_back rows rd k key t candidates) = List.length candidates.
Proof.
  revert k key. induction candidates as [|c rest IH]; intros k key; [reflexivity|].
  cbn [handed_back]. destruct (existsb _ rows); cbn [List.length]; now rewrite IH.
Qed.

(** The object handed back for the i-th candidate: the candidate itself when
    a stored alert suppresses it, its inserted row otherwise. *)
Lemma handed_back_nth (rows : list Alert.t) (rd : nat -> Z) (t : Z)
  (candidates : list Alert.t) (k : nat) (key : Z) (i : nat) (a : Alert.t) :
  nth_error (handed_back rows rd k key t candidates) i = Some a ->
  exists c,
    nth_error candidates i = Some c /\
    if existsb (similar_active c (rd (i + k)%nat - timedelta_hours 24)) rows
    then a = c
    else (exists key', a = Alert.inserted key' t c) /\
         In a (Session.insert_rows key t (admitted rows rd k candidates)).
Proof.
  revert k key i. induction candidates as [|c rest IH]; intros k key i.
  - destruct i; discriminate.
  - cbn [handed_back admitted]. destruct i as [|i].
    + cbn [Nat.add nth_error]. destruct (existsb _ rows) eqn:E; intros H; injection H as <-;
        exists c; (split; [reflexivity|]); rewrite E; [reflexivity|].
      split; [now exists key | now left].
    + destruct (existsb (similar_active c _) rows) eqn:E; cbn [nth_error app];
        intros H; apply IH in H; destruct H as (c' & Hc & H); exists c';
        (split; [exact Hc|]); rewrite Nat.add_succ_r in H; cbn [Nat.add];
        destruct (existsb (similar_active c' _) rows); try exact H.
      destruct H as (H1 & H2). split; [exact H1|]. cbn [Session.insert_rows]. now right.
Qed.

Lemma inserted_keeps_start (key t : Z) (c : Alert.t) :
  Alert.alert_start (Alert.inserted key t c) = Alert.alert_start c.
Proof. reflexivity. Qed.

(** What a call returns: the candidates as built, or, when it goes through,
    the candidates as the commit leaves them. *)
Lemma evaluate_returns (self : AlertService) (wd : WeatherData.t) (w : World) :
  let n := List.length (blueprints self wd) in
  let candidates := stamp (blueprints self wd) (readings (clock w)) (reads (clock w)) in
  (blueprints self wd <> [] /\ goes_through n w /\
   fst (evaluate_weather_data self wd w)
   = Return (handed_back (alerts w) (readings (clock w)) (n + reads (clock w))
               (alert_id_seq w + Z.of_nat (List.length (session_new w)))
               (server_now w (n + store_calls w)%nat) candidates)) \/
  ((blueprints self wd = [] \/ ~ goes_through n w) /\
   fst (evaluate_weather_data self wd w) = Return candidates).
Proof.
  intros n candidates.
  assert (D : blueprints self wd = [] \/ blueprints self wd <> [])
    by (destruct (blueprints self wd); [now left | right; discriminate]).
  destruct D as [E | Hne].
  - right. split; [now left|]. rewrite (evaluate_none self wd w E).
    subst candidates. rewrite E. reflexivity.
  - destruct (goes_through_dec n w) as [Hgo | Hno].
    + left. split; [exact Hne|]. split; [exact Hgo|].
      rewrite (evaluate_up self wd w Hne Hgo). reflexivity.
    + right. split; [now right|].
      destruct (evaluate_down self wd w Hne Hno) as (e & w' & Ew & _).
      rewrite Ew. reflexivity.
Qed.

Lemma blueprints_retimed (self : AlertService) (wd : WeatherData.t) (t : Z) :
  blueprints self (retimed t wd) = blueprints self wd.
Proof.
  unfold blueprints. apply flat_map_ext. intros k. f_equal.
  destruct k; reflexivity.
Qed.

(** The timestamp of the observation plays no part in what is returned. *)
Lemma evaluate_retimed (self : AlertService) (wd : WeatherData.t) (t : Z) (w : World) :
  fst (evaluate_weather_data self (retimed t wd) w)
  = fst (evaluate_weather_data self wd w).
Proof.
  pose proof (evaluate_returns self (retimed t wd) w) as H1.
  pose proof (evaluate_returns self wd w) as H2.
  rewrite blueprints_retimed in H1. cbv zeta in H1, H2.
  destruct H1 as [(N1 & G1 & E1) | ([N1 | G1] & E1)];
    destruct H2 as [(N2 & G2 & E2) | ([N2 | G2] & E2)];
    try contradiction; congruence.
Qed.

(** C5, as the code has it. The start timestamp of every candidate is the
    time at which it was built: the k-th candidate of a call carries the k-th
    reading of the clock taken by that call.  The timestamp of the
    observation plays no part: the same observation with any other timestamp
    gives the same candidates. *)
Theorem candidate_start_is_evaluation_time :
  forall (self : AlertService) (weather_data : WeatherData.t) (w : World)
         (candidates : list Alert.t),
    fst (evaluate_weather_data self weather_data w) = Return candidates ->
    (forall k a,
       nth_error candidates k = Some a ->
       Alert.alert_start a = readings (clock w) (k + reads (clock w))%nat) /\
    (forall t,
       fst (evaluate_weather_data self (retimed t weather_data) w) = Return candidates).
Proof.
  intros self wd w candidates H. split.
  - intros k a Hk.
    destruct (evaluate_returns self wd w) as [(_ & _ & E) | (_ & E)];
      rewrite E in H; injection H as <-.
    + apply handed_back_nth in Hk. destruct Hk as (c & Hc & Ha).
      apply stamp_nth in Hc. destruct Hc as (b & _ & ->).
      destruct (existsb _ (alerts w)); [now subst a|].
      destruct Ha as ((key & ->) & _). reflexivity.
    + apply stamp_nth in Hk. destruct Hk as (b & _ & ->). reflexivity.
  - intros t. now rewrite evaluate_retimed.
Qed.

Lemma witness_of_candidate_start_is_evaluation_time :
  let w := world_of (clock_from 6000000) never [] in
  exists a,
    fst (evaluate_weather_data alert_service hot_reading w) = Return [a] /\
    Alert.alert_start a = readings (clock w) (0 + reads (clock w))%nat /\
    fst (evaluate_weather_data alert_service (retimed 5 hot_reading) w) = Return [a].
Proof.
  cbv zeta.
  assert (E : exists a,
             fst (evaluate_weather_data alert_service hot_reading
                    (world_of (clock_from 6000000) never [])) = Return [a])
    by (eexists; vm_compute; reflexivity).
  destruct E as (a & E). exists a. split; [exact E|].
  split.
  - apply (proj1 (candidate_start_is_evaluation_time alert_service hot_reading
                    (world_of (clock_from 6000000) never []) _ E) 0%nat).
    reflexivity.
  - apply (proj2 (candidate_start_is_evaluation_time alert_service hot_reading
                    (world_of (clock_from 6000000) never []) _ E)).
Defined.

(** C5 as stated fails: an observation made at time 0 and evaluated when the
    clock reads 6000000 gives a candidate that starts at 6000000. *)
Lemma candidate_start_is_not_observation_time :
  exists a,
    fst (evaluate_weather_data alert_service hot_reading
           (world_of (clock_from 6000000) never [])) = Return [a] /\
    WeatherData.time hot_reading = 0 /\
    Alert.alert_start a = 6000000 /\
    Alert.alert_start a <> WeatherData.time hot_reading.
Proof.
  eexists. split; [vm_compute; reflexivity|].
  split; [reflexivity|]. split; [reflexivity|]. cbn. discriminate.
Qed.

Lemma similar_active_suppresses (now : Z) (c row : Alert.t) :
  similar_active c (now - timedelta_hours 24) row = true <-> suppresses now c row.
Proof.
  unfold similar_active, suppresses, suppression_window, is_true.
  rewrite !andb_true_iff, Z.eqb_eq, String.eqb_eq, Z.leb_le.
  destruct (Alert.is_active row) as [[|]|]; intuition congruence.
Qed.

Lemma not_suppressed (now : Z) (c : Alert.t) (rows : list Alert.t) :
  existsb (similar_active c (now - timedelta_hours 24)) rows = false <->
  ~ exists row, In row rows /\ suppresses now c row.
Proof.
  rewrite <- not_true_iff_false, existsb_exists.
  split; intros H (row & Hin & Hs); apply H; exists row; split; try assumption;
    now apply similar_active_suppresses.
Qed.

Lemma is_suppressed (now : Z) (c : Alert.t) (rows : list Alert.t) :
  existsb (similar_active c (now - timedelta_hours 24)) rows = true <->
  exists row, In row rows /\ suppresses now c row.
Proof.
  rewrite existsb_exists.
  split; intros (row & Hin & Hs); exists row; split; try assumption;
    now apply similar_active_suppresses.
Qed.

Lemma candidates_built (self : AlertService) (wd : WeatherData.t) (rd : nat -> Z) (k : nat)
  (c : Alert.t) :
  In c (stamp (blueprints self wd) rd k) -> built_from wd c.
Proof.
  intros H. pose proof (stamp_built wd _ rd k (blueprints_built self wd)) as F.
  rewrite Forall_forall in F. now apply F.
Qed.

Lemma handed_back_Forall2 (rows : list Alert.t) (rd : nat -> Z) (t : Z)
  (candidates : list Alert.t) (k : nat) (key : Z) :
  Forall2 (fun c a => a = c \/ exists key' t', a = Alert.inserted key' t' c)
    candidates (handed_back rows rd k key t candidates).
Proof.
  revert k key. induction candidates as [|c rest IH]; intros k key; cbn [handed_back].
  - constructor.
  - destruct (existsb _ rows); constructor; try apply IH; [now left|].
    right. now exists key, t.
Qed.

Lemma as_built_Forall2 (candidates : list Alert.t) :
  Forall2 (fun c a => a = c \/ exists key' t', a = Alert.inserted key' t' c)
    candidates candidates.
Proof. induction candidates; constructor; [now left | assumption]. Qed.

(** A failing round trip among the duplicate checks and the commit: the call
    does not go through. *)
Lemma failure_stops (n : nat) (w : World) :
  (exists k, (k <= n)%nat /\ store_fails w (k + store_calls w)%nat = true) ->
  ~ goes_through n w.
Proof.
  intros (k & Hk & Hf) [Hup _]. rewrite (Hup k) in Hf by lia. discriminate.
Qed.

Lemma reliable_goes_through (n : nat) (w : World) :
  store_reliable w -> clock_in_range (clock w) -> goes_through n w.
Proof.
  intros Hr Hc. split; [now apply store_reliable_up|].
  intros k _. cbn [advance readings reads]. apply Hc.
Qed.

Lemma bounded_clock_in_range (t0 : Z) :
  datetime_min + timedelta_hours 24 <= t0 ->
  t0 + 1000000000 <= datetime_max ->
  clock_in_range (bounded_clock t0).
Proof.
  intros Hlo Hhi k. unfold is_datetime, bounded_clock. cbn [readings].
  unfold datetime_min, datetime_max, timedelta_hours in *.
  apply andb_true_iff. split; apply Z.leb_le; lia.
Qed.

(** C9, as the code has it. The list returned by [evaluate_weather_data]
    holds one object for each candidate built from the metrics of the
    observation, in the order of the checks, also for the candidates that the
    duplicate check declined to store: each object is the candidate as it was
    built or the candidate as the INSERT left it.  The list is not the same
    for every content of the store: with a clean session, a database that
    answers and a clock in range, the object of a suppressed candidate is as
    built, without id, and the object of every other candidate is its stored
    row, with its id and [is_active = True].  When a round trip of the call
    fails, the list holds the candidates as built. *)
Theorem returned_objects_show_what_was_stored :
  forall (self : AlertService) (weather_data : WeatherData.t) (w : World),
  exists candidates returned : list Alert.t,
    fst (candidate_alerts self weather_data (clock w)) = Return candidates /\
    fst (evaluate_weather_data self weather_data w) = Return returned /\
    Forall2 (fun c a => a = c \/ exists key t, a = Alert.inserted key t c)
      candidates returned /\
    (session_clean w -> store_reliable w -> clock_in_range (clock w) ->
     forall k c a,
       nth_error candidates k = Some c ->
       nth_error returned k = Some a ->
       let now := readings (clock w) (k + (List.length candidates + reads (clock w)))%nat in
       ((exists row, In row (alerts w) /\ suppresses now c row) ->
        a = c /\ Alert.id a = None) /\
       (~ (exists row, In row (alerts w) /\ suppresses now c row) ->
        (exists key t, a = Alert.inserted key t c) /\
        Alert.id a <> None /\
        Alert.is_active a = Some true /\
        In a (alerts (snd (evaluate_weather_data self weather_data w))))) /\
    ((exists k, (k <= List.length candidates)%nat /\
                store_fails w (k + store_calls w)%nat = true) ->
     returned = candidates).
Proof.
  intros self wd w.
  exists (stamp (blueprints self wd) (readings (clock w)) (reads (clock w))).
  pose proof (evaluate_returns self wd w) as H. cbv zeta in H.
  rewrite stamp_length.
  destruct H as [(Hne & Hgo & E) | (Hcase & E)]; eexists;
    (split; [now rewrite candidate_alerts_shape|]); (split; [exact E|]).
  - split; [apply handed_back_Forall2|]. split.
    + intros [Hn Hd] _ _ k c a Hc Ha now. subst now.
      apply handed_back_nth in Ha. destruct Ha as (c' & Hc' & Ha).
      rewrite Hc in Hc'. injection Hc' as <-.
      pose proof (candidates_built self wd _ _ c (nth_error_In _ _ Hc))
        as (Hid & _ & _ & _ & Hact & _).
      split.
      * intros Hs. apply is_suppressed in Hs.
        rewrite Hs in Ha. split; [exact Ha | now subst a].
      * intros Hs. apply not_suppressed in Hs. rewrite Hs in Ha.
        destruct Ha as ((key & ->) & Hin).
        split; [now exists key, (server_now w (List.length (blueprints self wd)
                                                 + store_calls w)%nat)|].
        split; [cbn; rewrite Hid; discriminate|].
        split; [cbn; now rewrite Hact|].
        rewrite (evaluate_up self wd w Hne Hgo). simpl_world.
        rewrite Hn, Hd in *. cbn [List.length app] in *. rewrite Z.add_0_r in Hin.
        apply in_or_app. now right.
    + intros Hf. exfalso. revert Hgo. now apply failure_stops.
  - split; [apply as_built_Forall2|]. split.
    + intros _ Hr Hcl k c a Hc Ha now. destruct Hcase as [Hb | Hno].
      * rewrite Hb in Hc. destruct k; discriminate.
      * exfalso. apply Hno. now apply reliable_goes_through.
    + reflexivity.
Qed.

Lemma witness_of_returned_objects_show_what_was_stored :
  let stored := row_of 1 1 "temperatura_alta" 5000000 true None in
  let w := world_of (bounded_clock 6000000) never [stored] in
  session_clean w /\ store_reliable w /\ clock_in_range (clock w) /\
  exists c,
    fst (candidate_alerts alert_service hot_reading (clock w)) = Return [c] /\
    fst (evaluate_weather_data alert_service hot_reading w) = Return [c] /\
    Alert.id c = None.
Proof.
  cbv zeta.
  assert (Hclean : session_clean
                     (world_of (bounded_clock 6000000) never
                        [row_of 1 1 "temperatura_alta" 5000000 true None]))
    by (split; reflexivity).
  assert (Hrel : store_reliable
                   (world_of (bounded_clock 6000000) never
                      [row_of 1 1 "temperatura_alta" 5000000 true None]))
    by (intros k; reflexivity).
  assert (Hrange : clock_in_range (bounded_clock 6000000)).
  { apply bounded_clock_in_range; unfold datetime_min, datetime_max, timedelta_hours; lia. }
  split; [exact Hclean|]. split; [exact Hrel|]. split; [exact Hrange|].
  destruct (returned_objects_show_what_was_stored alert_service hot_reading
              (world_of (bounded_clock 6000000) never
                 [row_of 1 1 "temperatura_alta" 5000000 true None]))
    as (candidates & returned & Hc & Hr & _ & Hcase & _).
  vm_compute in Hc. injection Hc as <-.
  vm_compute in Hr. injection Hr as <-.
  destruct (Hcase Hclean Hrel Hrange 0%nat _ _ eq_refl eq_refl) as [Hs _].
  destruct Hs as [_ Hid].
  - exists (row_of 1 1 "temperatura_alta" 5000000 true None).
    split; [now left|]. repeat split; vm_compute; discriminate.
  - eexists. split; [reflexivity|]. split; [reflexivity | exact Hid].
Defined.

(** C9 as stated fails: the same observation at the same time gives, with an
    empty table, an object that carries the id, the state and the creation
    time of the row that was inserted, and with a suppressing alert in the
    table an object without them: the two returned lists differ. *)
Lemma returned_list_depends_on_store :
  let stored := row_of 1 1 "temperatura_alta" 5000000 true None in
  let w := world_of (clock_from 6000000) never [] in
  let w' := world_of (clock_from 6000000) never [stored] in
  clock w' = clock w /\
  (exists a,
     fst (evaluate_weather_data alert_service hot_reading w) = Return [a] /\
     Alert.id a = Some 100 /\ Alert.is_active a = Some true /\
     Alert.created_at a = Some 9000000 /\
     alerts (snd (evaluate_weather_data alert_service hot_reading w)) = [a]) /\
  (exists a',
     fst (evaluate_weather_data alert_service hot_reading w') = Return [a'] /\
     Alert.id a' = None /\ Alert.is_active a' = None /\ Alert.created_at a' = None /\
     alerts (snd (evaluate_weather_data alert_service hot_reading w')) = [stored]) /\
  fst (evaluate_weather_data alert_service hot_reading w')
  <> fst (evaluate_weather_data alert_service hot_reading w).
Proof.
  cbv zeta. split; [reflexivity|]. split; [| split].
  - eexists. split; [vm_compute; reflexivity|].
    do 3 (split; [reflexivity|]). vm_compute. reflexivity.
  - eexists. split; [vm_compute; reflexivity|].
    do 3 (split; [reflexivity|]). vm_compute. reflexivity.
  - vm_compute. discriminate.
Qed.

(** ** Failures of the database *)

(** C7, as the code has it. [evaluate_weather_data] never raises.  When a
    round trip of the call fails (the k-th one is the duplicate check of the
    k-th candidate, the one after the last check is the commit), the
    exception is caught and logged and the session is rolled back: the table
    of alerts is unchanged, no object stays pending, and the caller receives
    the whole list of the candidates built from the observation, each as it
    was built, without id, state or creation time.  The exception logged is
    the failure of the database when the clock is in range. *)
Theorem store_failure_is_caught :
  forall (self : AlertService) (weather_data : WeatherData.t) (w : World),
  exists candidates returned : list Alert.t,
    fst (candidate_alerts self weather_data (clock w)) = Return candidates /\
    fst (evaluate_weather_data self weather_data w) = Return returned /\
    (candidates <> [] ->
     (exists k, (k <= List.length candidates)%nat /\
                store_fails w (k + store_calls w)%nat = true) ->
     let w' := snd (evaluate_weather_data self weather_data w) in
     returned = candidates /\
     (forall a, In a returned ->
                Alert.id a = None /\ Alert.is_active a = None /\
                Alert.created_at a = None) /\
     alerts w' = alerts w /\
     session_new w' = [] /\ session_dirty w' = [] /\
     exists e,
       log w' = (log w ++ [evaluation_error e])%list /\
       (clock_in_range (clock w) -> e = OperationalError)).
Proof.
  intros self wd w.
  exists (stamp (blueprints self wd) (readings (clock w)) (reads (clock w))).
  assert (R : exists returned, fst (evaluate_weather_data self wd w) = Return returned).
  { destruct (evaluate_returns self wd w) as [(_ & _ & E) | (_ & E)]; eexists; exact E. }
  destruct R as (returned & R). exists returned.
  split; [now rewrite candidate_alerts_shape|]. split; [exact R|].
  intros Hne Hk. rewrite stamp_length in Hk.
  assert (Hb : blueprints self wd <> []).
  { intros E. apply Hne. rewrite E. reflexivity. }
  destruct (evaluate_down self wd w Hb (failure_stops _ _ Hk))
    as (e & w' & E & S & N & D & L & He).
  rewrite E in R |- *. cbn [fst snd] in *. injection R as <-.
  split; [reflexivity|]. split.
  { intros a Ha. apply candidates_built in Ha.
    destruct Ha as (A1 & _ & _ & _ & A2 & A3). repeat split; assumption. }
  split; [apply S|]. split; [exact N|]. split; [exact D|].
  exists e. split; [exact L|]. intros Hc. apply He.
  intros k _. cbn [advance readings reads]. apply Hc.
Qed.

Lemma witness_of_store_failure_is_caught :
  let w := world_of (clock_from 6000000) always [] in
  exists c,
    fst (candidate_alerts alert_service hot_reading (clock w)) = Return [c] /\
    store_fails w (0 + store_calls w)%nat = true /\
    fst (evaluate_weather_data alert_service hot_reading w) = Return [c] /\
    Alert.id c = None /\
    alerts (snd (evaluate_weather_data alert_service hot_reading w)) = alerts w.
Proof.
  cbv zeta.
  destruct (store_failure_is_caught alert_service hot_reading
              (world_of (clock_from 6000000) always []))
    as (candidates & returned & Hc & Hr & H).
  assert (Hone : exists c, candidates = [c]).
  { vm_compute in Hc. injection Hc as <-. eexists. reflexivity. }
  destruct Hone as (c & ->).
  destruct H as (-> & Hid & A & _).
  - discriminate.
  - exists 0%nat. split; [cbn; lia | reflexivity].
  - exists c. split; [exact Hc|]. split; [reflexivity|]. split; [exact Hr|].
    split; [apply Hid; now left | exact A].
Defined.

(** C7 as stated fails: the database fails at the first duplicate check, and
    the caller receives the candidate as a normal return value; the
    candidate has no id and nothing was stored. *)
Lemma store_failure_is_not_propagated :
  let down := world_of (clock_from 6000000) always [] in
  store_fails down (store_calls down) = true /\
  (exists a,
     fst (evaluate_weather_data alert_service hot_reading down) = Return [a] /\
     Alert.id a = None) /\
  alerts (snd (evaluate_weather_data alert_service hot_reading down)) = [].
Proof.
  cbv zeta. split; [reflexivity|]. split.
  - eexists. split; [vm_compute; reflexivity | reflexivity].
  - vm_compute. reflexivity.
Qed.

(** ** The duplicate check *)

Lemma admitted_In (rows : list Alert.t) (rd : nat -> Z) (candidates : list Alert.t)
  (j : nat) (c : Alert.t) :
  In c (admitted rows rd j candidates) <->
  exists i, nth_error candidates i = Some c /\
            existsb (similar_active c (rd (i + j)%nat - timedelta_hours 24)) rows = false.
Proof.
  revert j. induction candidates as [|a rest IH]; intros j; cbn [admitted].
  - split; [intros [] | intros ([|i] & H & _); discriminate].
  - rewrite in_app_iff, IH. split.
    + intros [H | (i & Hi & Hn)].
      * destruct (existsb _ rows) eqn:E; [destruct H|].
        destruct H as [<- | []]. exists 0%nat. split; [reflexivity | exact E].
      * exists (S i). split; [exact Hi|]. now rewrite Nat.add_succ_comm.
    + intros ([|i] & Hi & Hn).
      * cbn in Hi. injection Hi as ->. left. cbn [Nat.add] in Hn. rewrite Hn. now left.
      * right. exists i. split; [exact Hi|]. now rewrite <- Nat.add_succ_comm.
Qed.

Lemma admitted_incl (rows : list Alert.t) (rd : nat -> Z) (candidates : list Alert.t)
  (j : nat) :
  incl (admitted rows rd j candidates) candidates.
Proof.
  intros c H. apply admitted_In in H. destruct H as (i & Hi & _).
  eapply nth_error_In, Hi.
Qed.

Lemma insert_rows_In_inv (key t : Z) (new : list Alert.t) (r : Alert.t) :
  In r (Session.insert_rows key t new) ->
  exists a key', In a new /\ r = Alert.inserted key' t a.
Proof.
  revert key. induction new as [|a rest IH]; intros key; cbn; [intros []|].
  intros [<- | H].
  - exists a, key. split; [now left | reflexivity].
  - destruct (IH _ H) as (a' & key' & Hin & ->). exists a', key'. split; [now right | reflexivity].
Qed.

Lemma insert_rows_In_intro (key t : Z) (new : list Alert.t) (a : Alert.t) :
  In a new -> exists key', In (Alert.inserted key' t a) (Session.insert_rows key t new).
Proof.
  revert key. induction new as [|b rest IH]; intros key; cbn; [intros []|].
  intros [-> | H].
  - exists key. now left.
  - destruct (IH (key + 1) H) as (key' & Hin). exists key'. now right.
Qed.

Lemma inserted_injective (wd : WeatherData.t) (k1 k2 t1 t2 : Z) (a c : Alert.t) :
  built_from wd a -> built_from wd c ->
  Alert.inserted k1 t1 a = Alert.inserted k2 t2 c -> a = c.
Proof.
  unfold built_from, Alert.inserted. destruct a, c. cbn.
  intros (-> & -> & -> & -> & -> & ->) (-> & _ & _ & -> & -> & ->) H.
  injection H as -> -> -> -> -> -> -> -> -> -> -> ->. reflexivity.
Qed.

Lemma update_rows_nil (rows : list Alert.t) : Session.update_rows [] rows = rows.
Proof. reflexivity. Qed.

(** The rows a call adds to the table, when the session is clean, the
    database works and the clock is in range. *)
Lemma evaluate_clean_up (self : AlertService) (wd : WeatherData.t) (w : World) :
  let n := List.length (blueprints self wd) in
  let candidates := stamp (blueprints self wd) (readings (clock w)) (reads (clock w)) in
  session_clean w -> store_reliable w -> clock_in_range (clock w) ->
  exists server_time w',
    snd (evaluate_weather_data self wd w) = w' /\
    alerts w'
    = (alerts w
         ++ Session.insert_rows (alert_id_seq w) server_time
              (admitted (alerts w) (readings (clock w)) (n + reads (clock w)) candidates))%list /\
    session_clean w' /\ store_reliable w' /\ clock_in_range (clock w') /\
    readings (clock w') = readings (clock w) /\
    reads (clock w') = (n + n + reads (clock w))%nat.
Proof.
  intros n candidates [Hn Hd] Hr Hc.
  assert (D : blueprints self wd = [] \/ blueprints self wd <> [])
    by (destruct (blueprints self wd); [now left | right; discriminate]).
  destruct D as [E | Hne].
  - exists 0. eexists. split; [rewrite (evaluate_none self wd w E); reflexivity|].
    subst candidates n. rewrite E. cbn. rewrite app_nil_r. repeat split; assumption.
  - exists (server_now w (n + store_calls w)%nat). eexists.
    split; [rewrite (evaluate_up self wd w Hne (reliable_goes_through _ w Hr Hc));
            reflexivity|].
    simpl_world. rewrite Hn, Hd. cbn [app advance readings reads].
    fold n. repeat split; assumption.
Qed.

Lemma candidates_types_nodup (self : AlertService) (wd : WeatherData.t) (rd : nat -> Z)
  (k : nat) :
  NoDup (map Alert.alert_type (stamp (blueprints self wd) rd k)).
Proof. rewrite stamp_types. apply blueprints_types_nodup. Qed.

Lemma nodup_same_index {A} (l : list A) (i j : nat) (x : A) :
  NoDup l -> nth_error l i = Some x -> nth_error l j = Some x -> i = j.
Proof.
  intros Hnd Hi Hj. rewrite NoDup_nth_error in Hnd. apply Hnd.
  - apply nth_error_Some. congruence.
  - congruence.
Qed.

(** First half of C1: a candidate is inserted exactly when no stored alert
    suppresses it at the time of its duplicate check. *)
Lemma duplicate_check_decides (self : AlertService) (wd : WeatherData.t) (w : World) :
  session_clean w -> store_reliable w -> clock_in_range (clock w) ->
  exists candidates added : list Alert.t,
    fst (candidate_alerts self wd (clock w)) = Return candidates /\
    alerts (snd (evaluate_weather_data self wd w)) = (alerts w ++ added)%list /\
    (forall r, In r added -> exists c, In c candidates /\ persisted_in [r] c) /\
    forall k c,
      nth_error candidates k = Some c ->
      (persisted_in added c <->
       ~ exists row,
           In row (alerts w) /\
           suppresses
             (readings (clock w) (k + (List.length candidates + reads (clock w)))%nat)
             c row).
Proof.
  intros Hc Hr Hcl.
  destruct (evaluate_clean_up self wd w Hc Hr Hcl) as (t & w' & E & Ha & _).
  rewrite E, candidate_alerts_shape. cbn [fst snd].
  set (candidates := stamp (blueprints self wd) (readings (clock w)) (reads (clock w))) in *.
  set (n := List.length (blueprints self wd)) in *.
  exists candidates. eexists. split; [reflexivity|]. split; [exact Ha|].
  split.
  { intros r Hin. apply insert_rows_In_inv in Hin. destruct Hin as (a & key & Hin & ->).
    exists a. split; [eapply admitted_incl, Hin|]. exists key, t. now left. }
  assert (Hlen : List.length candidates = n) by apply stamp_length.
  intros k c Hk. rewrite Hlen, <- not_suppressed.
  split.
  - intros (key & t' & Hin).
    apply insert_rows_In_inv in Hin. destruct Hin as (a & key' & Hin & Heq).
    assert (a = c) as ->.
    { symmetry. eapply inserted_injective; [| | exact Heq].
      - eapply candidates_built, nth_error_In, Hk.
      - eapply candidates_built, admitted_incl, Hin. }
    apply admitted_In in Hin. destruct Hin as (i & Hi & Hn).
    assert (i = k) as ->; [| exact Hn].
    eapply nodup_same_index; [| exact Hi | exact Hk].
    eapply NoDup_map_inv, candidates_types_nodup.
  - intros Hn.
    assert (Hin : In c (admitted (alerts w) (readings (clock w)) (n + reads (clock w))
                          candidates)).
    { apply admitted_In. exists k. split; [exact Hk | exact Hn]. }
    destruct (insert_rows_In_intro (alert_id_seq w) t _ c Hin) as (key & Hkey).
    exists key, t. exact Hkey.
Qed.

Lemma count_type_absent (type : string) (l : list Alert.t) :
  ~ In type (map Alert.alert_type l) -> count_type type l = 0%nat.
Proof.
  unfold count_type. induction l as [|a l IH]; cbn; [reflexivity|].
  intros H. destruct (String.eqb_spec (Alert.alert_type a) type) as [E | E].
  - exfalso. apply H. now left.
  - apply IH. intros Hin. apply H. now right.
Qed.

Lemma count_type_one (l : list Alert.t) (c : Alert.t) :
  NoDup (map Alert.alert_type l) -> In c l -> count_type (Alert.alert_type c) l = 1%nat.
Proof.
  induction l as [|a l IH]; cbn [map]; [intros _ []|].
  intros Hnd Hin. inversion Hnd as [|x xs Hx Hnd']; subst.
  unfold count_type. cbn [filter]. destruct Hin as [-> | Hin].
  - rewrite String.eqb_refl. cbn [List.length]. f_equal.
    now apply count_type_absent.
  - destruct (String.eqb_spec (Alert.alert_type a) (Alert.alert_type c)) as [E | E].
    + exfalso. apply Hx. rewrite E. now apply in_map.
    + now apply IH.
Qed.

Lemma admitted_types_nodup (rows : list Alert.t) (rd : nat -> Z) (j : nat)
  (candidates : list Alert.t) :
  NoDup (map Alert.alert_type candidates) ->
  NoDup (map Alert.alert_type (admitted rows rd j candidates)).
Proof.
  revert j. induction candidates as [|a rest IH]; intros j Hnd; cbn [admitted map].
  - constructor.
  - inversion Hnd as [|x xs Hx Hnd']; subst.
    destruct (existsb _ rows); cbn [app map]; [now apply IH|].
    constructor; [| now apply IH].
    intros Hin. apply Hx. apply in_map_iff in Hin. destruct Hin as (b & Hb & Hin).
    apply in_map_iff. exists b. split; [exact Hb|]. eapply admitted_incl, Hin.
Qed.

Lemma active_for_app (location : Z) (type : string) (l1 l2 : list Alert.t) :
  active_for location type (l1 ++ l2)
  = (active_for location type l1 ++ active_for location type l2)%list.
Proof. apply filter_app. Qed.

(** Among freshly inserted candidates of an observation, the active alerts of
    its location and of a type are the candidates of that type. *)
Lemma active_for_inserted (wd : WeatherData.t) (key t : Z) (type : string)
  (new : list Alert.t) :
  Forall (built_from wd) new ->
  List.length (active_for (WeatherData.location_id wd) type (Session.insert_rows key t new))
  = count_type type new.
Proof.
  intros H. revert key. induction H as [|a l Ha Hl IH]; intros key; [reflexivity|].
  unfold active_for, count_type in *. cbn [Session.insert_rows filter].
  destruct Ha as (_ & _ & Hloc & _ & Hact & _).
  cbn [Alert.inserted Alert.location_id Alert.alert_type Alert.is_active].
  rewrite Hloc, Hact, Z.eqb_refl. cbn [andb is_true]. rewrite andb_true_r.
  destruct (String.eqb (Alert.alert_type a) type); cbn [List.length]; now rewrite IH.
Qed.

(** Second half of C1: the same observation processed twice within the
    suppression window leaves one active alert for each type it triggers. *)
Lemma processed_twice (self : AlertService) (wd : WeatherData.t) (w : World) :
  session_clean w -> store_reliable w -> clock_in_range (clock w) ->
  let w1 := snd (evaluate_weather_data self wd w) in
  let w2 := snd (evaluate_weather_data self wd w1) in
  (forall i j, (reads (clock w) <= i)%nat -> (i <= j)%nat -> (j < reads (clock w2))%nat ->
               readings (clock w) j - suppression_window <= readings (clock w) i) ->
  forall candidates c,
    fst (candidate_alerts self wd (clock w)) = Return candidates ->
    In c candidates ->
    active_for (WeatherData.location_id wd) (Alert.alert_type c) (alerts w) = [] ->
    List.length
      (active_for (WeatherData.location_id wd) (Alert.alert_type c) (alerts w2)) = 1%nat.
Proof.
  intros Hc Hr Hcl w1 w2 Hwin candidates c Hret Hin Hnone.
  destruct (evaluate_clean_up self wd w Hc Hr Hcl)
    as (t1 & w1' & E1 & Ha1 & Hc1 & Hr1 & Hcl1 & Hrd1 & Hreads1).
  assert (w1 = w1') as Ew1 by (subst w1; exact E1).
  destruct (evaluate_clean_up self wd w1' Hc1 Hr1 Hcl1)
    as (t2 & w2' & E2 & Ha2 & _ & _ & _ & Hrd2 & Hreads2).
  assert (w2 = w2') as Ew2 by (subst w2; now rewrite Ew1).
  rewrite candidate_alerts_shape in Hret. cbn [fst] in Hret. injection Hret as <-.
  rewrite Ew2 in *. clear w1 w2 Ew1 Ew2 E1 E2.
  pose proof (stamp_length (blueprints self wd)) as Hlens.
  remember (List.length (blueprints self wd)) as n eqn:Hn.
  set (rd := readings (clock w)) in *.
  set (r0 := reads (clock w)) in *.
  set (L1 := stamp (blueprints self wd) rd r0) in *.
  rewrite Hrd1 in *.
  set (r1 := reads (clock w1')) in *.
  set (L2 := stamp (blueprints self wd) rd r1) in *.
  set (A1 := admitted (alerts w) rd (n + r0) L1) in *.
  set (A2 := admitted (alerts w1') rd (n + r1) L2) in *.
  assert (Hlen : List.length L1 = n) by apply Hlens.
  destruct (In_nth_error _ _ Hin) as (k & Hk).
  assert (Hkn : (k < n)%nat) by (rewrite <- Hlen; apply nth_error_Some; congruence).
  pose proof (candidates_built self wd rd r0 c Hin) as Hbc.
  destruct Hbc as (_ & _ & Hloc & _ & Hact & _).
  (* the candidate passes the first duplicate check *)
  assert (HinA1 : In c A1).
  { apply admitted_In. exists k. split; [exact Hk|]. apply not_suppressed.
    intros (row & Hrow & Hl & Ht & Ha & _).
    assert (Hf : In row (active_for (WeatherData.location_id wd) (Alert.alert_type c)
                           (alerts w))).
    { apply filter_In. split; [exact Hrow|].
      rewrite Hl, Hloc, Ht, Ha, Z.eqb_refl, String.eqb_refl. reflexivity. }
    rewrite Hnone in Hf. destruct Hf. }
  destruct (insert_rows_In_intro (alert_id_seq w) t1 A1 c HinA1) as (key & Hrow1).
  (* no candidate of that type passes the second one *)
  assert (HnotA2 : ~ In (Alert.alert_type c) (map Alert.alert_type A2)).
  { intros Hm. apply in_map_iff in Hm. destruct Hm as (a2 & Hty & Ha2in).
    apply admitted_In in Ha2in. destruct Ha2in as (i & Hi & Hex).
    apply not_suppressed in Hex. apply Hex.
    exists (Alert.inserted key t1 c). split.
    - rewrite Ha1. apply in_or_app. now right.
    - assert (Hin2 : In a2 L2) by (eapply nth_error_In, Hi).
      pose proof (candidates_built self wd rd r1 a2 Hin2) as (_ & _ & Hloc2 & _).
      assert (Hi' : (i < n)%nat).
      { rewrite <- (Hlens rd r1). apply nth_error_Some. fold L2. congruence. }
      apply stamp_nth in Hk. destruct Hk as (b & _ & Hc').
      unfold suppresses. cbn [Alert.inserted Alert.location_id Alert.alert_type
                                Alert.is_active Alert.alert_start].
      rewrite Hact, Hloc, Hloc2, Hty. repeat split.
      rewrite Hc'. cbn [restarted Alert.alert_start]. apply Hwin; lia. }
  rewrite Ha2, Ha1, !active_for_app, !length_app, Hnone.
  rewrite (active_for_inserted wd), (active_for_inserted wd).
  - rewrite count_type_one; [| | exact HinA1].
    + rewrite count_type_absent by exact HnotA2. reflexivity.
    + apply admitted_types_nodup, candidates_types_nodup.
  - apply Forall_forall. intros a Ha. eapply candidates_built, admitted_incl, Ha.
  - apply Forall_forall. intros a Ha. eapply candidates_built, admitted_incl, Ha.
Qed.

(** C1, as the code has it. With a clean session, a working database and a
    clock in range, a call of [evaluate_weather_data] appends to the table
    inserted candidates only, and a candidate is inserted if and only if the
    table holds no active alert of the same location and type whose start is
    not earlier than 24 hours before the time of its duplicate check (the
    clock reading taken by that check); the filter has no upper bound on the
    start.  When the same observation is processed twice and all clock
    readings of the two calls lie within the suppression window, the store
    ends with exactly one active alert for the location and each type the
    observation triggers, provided it held none before. *)
Theorem duplicate_suppression :
  forall (self : AlertService) (weather_data : WeatherData.t) (w : World),
    session_clean w -> store_reliable w -> clock_in_range (clock w) ->
    (exists candidates added : list Alert.t,
       fst (candidate_alerts self weather_data (clock w)) = Return candidates /\
       alerts (snd (evaluate_weather_data self weather_data w)) = (alerts w ++ added)%list /\
       (forall r, In r added -> exists c, In c candidates /\ persisted_in [r] c) /\
       forall k c,
         nth_error candidates k = Some c ->
         (persisted_in added c <->
          ~ exists row,
              In row (alerts w) /\
              suppresses
                (readings (clock w) (k + (List.length candidates + reads (clock w)))%nat)
                c row)) /\
    (let w1 := snd (evaluate_weather_data self weather_data w) in
     let w2 := snd (evaluate_weather_data self weather_data w1) in
     (forall i j,
        (reads (clock w) <= i)%nat -> (i <= j)%nat -> (j < reads (clock w2))%nat ->
        readings (clock w) j - suppression_window <= readings (clock w) i) ->
     forall candidates c,
       fst (candidate_alerts self weather_data (clock w)) = Return candidates ->
       In c candidates ->
       active_for (WeatherData.location_id weather_data) (Alert.alert_type c) (alerts w) = [] ->
       List.length
         (active_for (WeatherData.location_id weather_data) (Alert.alert_type c) (alerts w2))
       = 1%nat).
Proof.
  intros self wd w Hc Hr Hcl. split.
  - now apply duplicate_check_decides.
  - now apply processed_twice.
Qed.

Lemma witness_of_duplicate_suppression :
  let w := world_of (bounded_clock 6000000) never [] in
  let w1 := snd (evaluate_weather_data alert_service hot_reading w) in
  let w2 := snd (evaluate_weather_data alert_service hot_reading w1) in
  session_clean w /\
  store_reliable w /\
  clock_in_range (clock w) /\
  exists c,
    fst (candidate_alerts alert_service hot_reading (clock w)) = Return [c] /\
    List.length (alerts w1) = 1%nat /\
    List.length (alerts w2) = 1%nat /\
    List.length
      (active_for (WeatherData.location_id hot_reading) (Alert.alert_type c) (alerts w2))
    = 1%nat.
Proof.
  cbv zeta.
  assert (Hc : session_clean (world_of (bounded_clock 6000000) never []))
    by (split; reflexivity).
  assert (Hr : store_reliable (world_of (bounded_clock 6000000) never []))
    by (intros k; reflexivity).
  assert (Hcl : clock_in_range (bounded_clock 6000000)).
  { apply bounded_clock_in_range; unfold datetime_min, datetime_max, timedelta_hours; lia. }
  split; [exact Hc|]. split; [exact Hr|]. split; [exact Hcl|].
  assert (E : exists c,
             fst (candidate_alerts alert_service hot_reading (bounded_clock 6000000))
             = Return [c])
    by (eexists; vm_compute; reflexivity).
  destruct E as (c & E). exists c. split; [exact E|].
  split; [vm_compute; reflexivity|]. split; [vm_compute; reflexivity|].
  refine (proj2 (duplicate_suppression alert_service hot_reading
                   (world_of (bounded_clock 6000000) never []) Hc Hr Hcl) _ _ _ E _ _).
  - intros i j _ _ _.
    unfold world_of, bounded_clock, suppression_window, timedelta_hours.
    cbn [clock readings]. lia.
  - now left.
  - reflexivity.
Defined.

(** C1 as stated fails, in both halves.  An active alert that starts after
    the duplicate check suppresses the candidate, though no active alert of
    the location and type started in the 24 hours that end at the check; and
    with an active alert that started more than 24 hours before, processing
    the same observation twice within the window leaves two active alerts of
    the location and type. *)
Lemma trailing_window_is_not_the_filter :
  let w := world_of (bounded_clock 6000000) never [later_alert] in
  let v := world_of (bounded_clock 6000000) never [earlier_alert] in
  let v1 := snd (evaluate_weather_data alert_service hot_reading v) in
  let v2 := snd (evaluate_weather_data alert_service hot_reading v1) in
  (exists c,
     fst (candidate_alerts alert_service hot_reading (clock w)) = Return [c] /\
     readings (clock w) 1 = 7000000 /\
     alerts (snd (evaluate_weather_data alert_service hot_reading w)) = alerts w /\
     ~ exists row, In row (alerts w) /\ suppresses_in_window 7000000 c row) /\
  reads (clock v2) = 4%nat /\
  readings (clock v) 3 - suppression_window <= readings (clock v) 0 /\
  List.length (active_for 1 "temperatura_alta" (alerts v2)) = 2%nat.
Proof.
  cbv zeta. split; [| split; [| split]].
  - eexists. split; [vm_compute; reflexivity|]. split; [reflexivity|].
    split; [vm_compute; reflexivity|].
    intros (row & [<- | []] & _ & _ & _ & _ & H). vm_compute in H. now apply H.
  - vm_compute. reflexivity.
  - vm_compute. discriminate.
  - vm_compute. reflexivity.
Qed.

(** ** deactivate_alert *)

(** The four ways a call of [deactivate_alert] can go. *)
Lemma deactivate_run (self : AlertService) (alert_id : Z) (w : World) :
  deactivate_alert self alert_id w
  = if store_fails w (store_calls w) then
      (Return false,
       {| clock := clock w; store_fails := store_fails w; server_now := server_now w;
          store_calls := S (store_calls w);
          locations := locations w; alerts := alerts w;
          session_new := []; session_dirty := [];
          alert_id_seq := alert_id_seq w;
          log := log w ++ [deactivation_error OperationalError] |})
    else
      match hd_error (filter (has_id alert_id) (alerts w)) with
      | None =>
          (Return false,
           {| clock := clock w; store_fails := store_fails w; server_now := server_now w;
              store_calls := S (store_calls w);
              locations := locations w; alerts := alerts w;
              session_new := session_new w; session_dirty := session_dirty w;
              alert_id_seq := alert_id_seq w; log := log w |})
      | Some a =>
          if store_fails w (S (store_calls w)) then
            (Return false,
             {| clock := tick (clock w); store_fails := store_fails w; server_now := server_now w;
                store_calls := S (S (store_calls w));
                locations := locations w; alerts := alerts w;
                session_new := []; session_dirty := [];
                alert_id_seq := alert_id_seq w;
                log := log w ++ [deactivation_error OperationalError] |})
          else
            (Return true,
             {| clock := tick (clock w); store_fails := store_fails w; server_now := server_now w;
                store_calls := S (S (store_calls w));
                locations := locations w;
                alerts :=
                  Session.update_rows
                    (session_dirty w
                       ++ [Alert.deactivated (readings (clock w) (reads (clock w))) a])
                    (alerts w)
                    ++ Session.insert_rows (alert_id_seq w)
                         (server_now w (S (store_calls w))) (session_new w);
                session_new := []; session_dirty := [];
                alert_id_seq := alert_id_seq w + Z.of_nat (List.length (session_new w));
                log := log w |})
      end.
Proof.
  unfold deactivate_alert, try_except. unfold bind at 1. unfold Session.first at 1.
  unfold bind at 1. unfold Session.round_trip at 1.
  destruct (store_fails w (store_calls w)); [reflexivity|].
  unfold gets at 1. unfold Session.query. cbn [alerts].
  change (fun a : Alert.t => match Alert.id a with
                             | Some i => i =? alert_id
                             | None => false
                             end) with (has_id alert_id).
  destruct (hd_error (filter (has_id alert_id) (alerts w))) as [a|]; [| reflexivity].
  unfold bind at 1. unfold with_clock, datetime_now at 1. cbv beta iota.
  unfold bind at 1. unfold Session.modified, modify at 1. cbv beta iota.
  unfold bind at 1. rewrite commit_run.
  cbn [clock store_fails store_calls locations alerts session_new session_dirty
         alert_id_seq log].
  destruct (store_fails w (S (store_calls w))); reflexivity.
Qed.

(** ** The read operations *)

Lemma insert_desc_perm {A} (key : A -> Z) (x : A) (l : list A) :
  Permutation (insert_desc key x l) (x :: l).
Proof.
  induction l as [|y l IH]; cbn; [reflexivity|].
  destruct (key y <=? key x); [reflexivity|].
  rewrite IH. apply perm_swap.
Qed.

Lemma order_by_desc_perm {A} (key : A -> Z) (l : list A) :
  Permutation (order_by_desc key l) l.
Proof.
  induction l as [|x l IH]; cbn; [reflexivity|].
  rewrite insert_desc_perm. now constructor.
Qed.



Lemma get_active_alerts_run (self : AlertService) (location_id : option Z) (w : World) :
  get_active_alerts self location_id w
  = if store_fails w (store_calls w) then
      (Return [],
       {| clock := clock w; store_fails := store_fails w; server_now := server_now w;
          store_calls := S (store_calls w);
          locations := locations w; alerts := alerts w;
          session_new := session_new w; session_dirty := session_dirty w;
          alert_id_seq := alert_id_seq w;
          log := log w ++ [log_error "Error getting active alerts" OperationalError] |})
    else
      (Return
         (order_by_desc Alert.alert_start
            (filter
               (fun a =>
                  is_true (Alert.is_active a)
                  && match location_id with
                     | Some l => if l =? 0 then true else Alert.location_id a =? l
                     | None => true
                     end)
               (alerts w))),
       {| clock := clock w; store_fails := store_fails w; server_now := server_now w;
          store_calls := S (store_calls w);
          locations := locations w; alerts := alerts w;
          session_new := session_new w; session_dirty := session_dirty w;
          alert_id_seq := alert_id_seq w; log := log w |}).
Proof.
  unfold get_active_alerts, try_except, Session.all_by_start_desc, bind,
    Session.round_trip, gets, logger, modify, ret, Session.query.
  destruct (store_fails w (store_calls w)); [reflexivity|].
  cbn [alerts]. do 3 f_equal.
  destruct location_id as [l|]; cbn [truthy].
  - destruct (l =? 0); cbn [negb].
    + apply filter_ext. intros a. now rewrite andb_true_r.
    + reflexivity.
  - apply filter_ext. intros a. now rewrite andb_true_r.
Qed.

Ltac split_round_trips :=
  repeat (simpl_world;
          match goal with
          | |- context [if store_fails ?w ?k then _ else _] => destruct (store_fails w k)
          end);
  simpl_world.

Ltac split_cutoff H :=
  match goal with
  | |- context [(datetime_min <=? ?t) && (?t <=? datetime_max)] =>
      destruct ((datetime_min <=? t) && (t <=? datetime_max)) eqn:H
  end.

Ltac unfold_statistics :=
  unfold get_alert_statistics, timedelta, datetime_sub, try_except, Session.count,
    Session.count_by, Session.first_location_count, bind, Session.round_trip, gets,
    logger, modify, ret, raise, with_clock, datetime_now.

Lemma statistics_frame (self : AlertService) (days : Z) (w : World) :
  alerts (snd (get_alert_statistics self days w)) = alerts w /\
  session_new (snd (get_alert_statistics self days w)) = session_new w /\
  session_dirty (snd (get_alert_statistics self days w)) = session_dirty w.
Proof.
  unfold_statistics.
  simpl_world. destruct (Z.abs days <=? 999999999); [| repeat split].
  simpl_world. split_cutoff Hc; [| repeat split].
  split_round_trips; repeat split.
Qed.



(** ** The lifecycle of an alert *)

Lemma inserted_candidate_active (wd : WeatherData.t) (key t : Z) (c : Alert.t) :
  built_from wd c ->
  Alert.is_active (Alert.inserted key t c) = Some true /\
  Alert.alert_end (Alert.inserted key t c) = None.
Proof.
  intros (_ & _ & _ & He & Ha & _). cbn. rewrite He, Ha. split; reflexivity.
Qed.

(** Whatever the database does, a call of [evaluate_weather_data] on a clean
    session leaves the session clean and only appends rows, each an inserted
    candidate: active, without end timestamp. *)
Lemma evaluate_appends (self : AlertService) (wd : WeatherData.t) (w : World) :
  session_clean w ->
  session_clean (snd (evaluate_weather_data self wd w)) /\
  exists added,
    alerts (snd (evaluate_weather_data self wd w)) = (alerts w ++ added)%list /\
    Forall (fun r => Alert.is_active r = Some true /\ Alert.alert_end r = None) added.
Proof.
  intros [Hn Hd].
  assert (D : blueprints self wd = [] \/ blueprints self wd <> [])
    by (destruct (blueprints self wd); [now left | right; discriminate]).
  destruct D as [E | Hne].
  - rewrite (evaluate_none self wd w E). cbn [snd]. split; [split; assumption|].
    exists []. cbn [alerts]. rewrite app_nil_r. split; [reflexivity | constructor].
  - destruct (goes_through_dec (List.length (blueprints self wd)) w) as [Hgo | Hno].
    + rewrite (evaluate_up self wd w Hne Hgo). cbn [snd]. split; [split; reflexivity|].
      cbn [alerts]. rewrite Hn, Hd. cbn [app]. rewrite update_rows_nil.
      eexists. split; [reflexivity|].
      apply Forall_forall. intros r Hr.
      apply insert_rows_In_inv in Hr. destruct Hr as (a & key & Ha & ->).
      apply (inserted_candidate_active wd).
      eapply candidates_built, admitted_incl, Ha.
    + destruct (evaluate_down self wd w Hne Hno) as (e & w' & Ew & S & N & D & _).
      rewrite Ew. cbn [snd]. split; [split; assumption|].
      exists []. rewrite app_nil_r. split; [apply S | constructor].
Qed.

Lemma updated_row (d : Alert.t) (rows : list Alert.t) (r : Alert.t) :
  In r (updated d rows) ->
  r = d \/ (In r rows /\ Session.same_id r d = false).
Proof.
  unfold updated. intros H. apply in_map_iff in H. destruct H as (x & Hx & Hin).
  destruct (Session.same_id x d) eqn:E; [now left|].
  right. subst r. split; assumption.
Qed.

Lemma first_found {A} (p : A -> bool) (l : list A) (x : A) :
  hd_error (filter p l) = Some x -> In x l /\ p x = true.
Proof.
  intros H. apply filter_In. destruct (filter p l); [discriminate|].
  injection H as ->. now left.
Qed.

(** The table after a call of [deactivate_alert] on a clean session: either
    unchanged, or the call returned [True] and the row of the alert was
    replaced by its deactivated version, stamped with the first clock reading
    of the call. *)
Lemma deactivate_cases (self : AlertService) (alert_id : Z) (w : World) :
  session_clean w ->
  session_clean (snd (deactivate_alert self alert_id w)) /\
  ((fst (deactivate_alert self alert_id w) = Return false /\
    alerts (snd (deactivate_alert self alert_id w)) = alerts w) \/
   (exists a,
      hd_error (filter (has_id alert_id) (alerts w)) = Some a /\
      store_up 2 w /\
      fst (deactivate_alert self alert_id w) = Return true /\
      alerts (snd (deactivate_alert self alert_id w))
      = updated (Alert.deactivated (readings (clock w) (reads (clock w))) a) (alerts w))).
Proof.
  intros [Hn Hd]. rewrite deactivate_run.
  destruct (store_fails w (store_calls w)) eqn:F0.
  { cbn. split; [split; reflexivity|]. left. split; reflexivity. }
  destruct (hd_error (filter (has_id alert_id) (alerts w))) as [a|] eqn:Ea.
  2:{ cbn. split; [split; assumption|]. left. split; reflexivity. }
  destruct (store_fails w (S (store_calls w))) eqn:F1.
  { cbn. split; [split; reflexivity|]. left. split; reflexivity. }
  cbn [fst snd alerts session_new session_dirty]. split; [split; reflexivity|].
  right. exists a. split; [reflexivity|]. split.
  - intros k Hk. destruct k as [|[|k]]; [exact F0 | exact F1 | lia].
  - split; [reflexivity|]. rewrite Hn, Hd. cbn. now rewrite app_nil_r.
Qed.

Lemma deactivated_rows (alert_id now : Z) (a : Alert.t) (rows : list Alert.t) (r : Alert.t) :
  has_id alert_id a = true ->
  In r (updated (Alert.deactivated now a) rows) ->
  Alert.id r = Some alert_id ->
  r = Alert.deactivated now a.
Proof.
  intros Ha Hin Hid. apply updated_row in Hin. destruct Hin as [-> | [_ Hs]]; [reflexivity|].
  exfalso. unfold Session.same_id, has_id in *. cbn in Hs. rewrite Hid in Hs.
  destruct (Alert.id a) as [i|]; [| discriminate].
  apply Z.eqb_eq in Ha. subst i. rewrite Z.eqb_refl in Hs. discriminate.
Qed.

Lemma lifecycle_state_ok (a : Alert.t) : lifecycle_state a -> lifecycle_ok a.
Proof.
  unfold lifecycle_state, lifecycle_ok.
  intros [[Ha He] | [Ha (t & He)]]; rewrite Ha, He; split; intros H; congruence.
Qed.

Lemma step_preserves (w w' : World) :
  step w w' ->
  session_clean w /\ Forall lifecycle_state (alerts w) ->
  session_clean w' /\ Forall lifecycle_state (alerts w').
Proof.
  intros Hs [Hc Hf]. destruct Hs as [self wd w | self alert_id w | self l w | self days w].
  - destruct (evaluate_appends self wd w Hc) as (Hc' & added & Ea & Fa).
    split; [exact Hc'|]. rewrite Ea. apply Forall_app. split; [exact Hf|].
    eapply Forall_impl; [| exact Fa]. intros r Hr. now left.
  - destruct (deactivate_cases self alert_id w Hc) as (Hc' & [[_ Ea] | (a & _ & _ & _ & Ea)]);
      (split; [exact Hc'|]); rewrite Ea; [exact Hf|].
    apply Forall_forall. intros r Hr. apply updated_row in Hr.
    destruct Hr as [-> | [Hr _]].
    + right. split; [reflexivity | eexists; reflexivity].
    + rewrite Forall_forall in Hf. now apply Hf.
  - rewrite get_active_alerts_run. destruct (store_fails w (store_calls w)); cbn;
      split; assumption.
  - destruct (statistics_frame self days w) as (Ea & En & Ed).
    split; [destruct Hc; split; congruence | now rewrite Ea].
Qed.

(** C3. In every world the operations of the service reach from an empty
    table, each stored alert is active if and only if it has no end
    timestamp: it is either active without end or inactive with an end.
    Creation by [evaluate_weather_data] appends rows that are active and have
    no end timestamp; a successful [deactivate_alert] leaves the alert of
    that id inactive with an end timestamp. *)
Theorem lifecycle_invariant :
  (forall (w : World) (a : Alert.t),
     reachable w -> In a (alerts w) -> lifecycle_ok a /\ lifecycle_state a) /\
  (forall (self : AlertService) (weather_data : WeatherData.t) (w : World),
     session_clean w ->
     exists added,
       alerts (snd (evaluate_weather_data self weather_data w)) = (alerts w ++ added)%list /\
       forall r, In r added -> Alert.is_active r = Some true /\ Alert.alert_end r = None) /\
  (forall (self : AlertService) (alert_id : Z) (w : World) (r : Alert.t),
     session_clean w ->
     fst (deactivate_alert self alert_id w) = Return true ->
     In r (alerts (snd (deactivate_alert self alert_id w))) ->
     Alert.id r = Some alert_id ->
     Alert.is_active r = Some false /\
     Alert.alert_end r = Some (readings (clock w) (reads (clock w)))).
Proof.
  split; [| split].
  - intros w a Hr Hin.
    assert (Hinv : session_clean w /\ Forall lifecycle_state (alerts w)).
    { clear a Hin. induction Hr as [w He Hc | w w' _ IH Hs].
      - split; [exact Hc|]. rewrite He. constructor.
      - eapply step_preserves; eassumption. }
    destruct Hinv as [_ Hf]. rewrite Forall_forall in Hf.
    split; [apply lifecycle_state_ok|]; now apply Hf.
  - intros self wd w Hc.
    destruct (evaluate_appends self wd w Hc) as (_ & added & Ea & Fa).
    exists added. split; [exact Ea|]. now apply Forall_forall.
  - intros self alert_id w r Hc Ht Hin Hid.
    destruct (deactivate_cases self alert_id w Hc) as (_ & [[Hf _] | (a & Ha & _ & _ & Ea)]).
    + congruence.
    + rewrite Ea in Hin. apply first_found in Ha. destruct Ha as [_ Ha].
      rewrite (deactivated_rows alert_id _ a (alerts w) r Ha Hin Hid).
      split; reflexivity.
Qed.

Lemma witness_of_lifecycle_invariant :
  let w0 := world_of (clock_from 6000000) never [] in
  let w1 := snd (evaluate_weather_data alert_service hot_reading w0) in
  let w2 := snd (deactivate_alert alert_service 100 w1) in
  reachable w2 /\
  exists a,
    In a (alerts w2) /\
    (lifecycle_ok a /\ lifecycle_state a) /\
    Alert.id a = Some 100 /\
    Alert.is_active a = Some false /\
    Alert.alert_end a = Some 8000000.
Proof.
  cbv zeta.
  assert (Hr : reachable
                 (snd (deactivate_alert alert_service 100
                         (snd (evaluate_weather_data alert_service hot_reading
                                 (world_of (clock_from 6000000) never [])))))).
  { exact (reachable_step _ _
             (reachable_step _ _
                (reachable_start (world_of (clock_from 6000000) never [])
                   eq_refl (conj eq_refl eq_refl))
                (step_evaluate alert_service hot_reading _))
             (step_deactivate alert_service 100 _)). }
  split; [exact Hr|].
  eexists. split; [vm_compute; left; reflexivity|].
  split; [| split; [reflexivity | split; reflexivity]].
  apply (proj1 lifecycle_invariant _ _ Hr). vm_compute. left. reflexivity.
Defined.

Lemma exists_first {A} (p : A -> bool) (l : list A) :
  (exists a, In a l /\ p a = true) -> exists x, hd_error (filter p l) = Some x.
Proof.
  intros (a & Hin & Hp).
  assert (H : In a (filter p l)) by (apply filter_In; now split).
  destruct (filter p l) as [|x s]; [destruct H | now exists x].
Qed.

(** A call of [deactivate_alert] for a stored id, with a clean session and a
    working database. *)
Lemma deactivate_up (self : AlertService) (alert_id : Z) (w : World) (a : Alert.t) :
  session_clean w -> store_reliable w ->
  hd_error (filter (has_id alert_id) (alerts w)) = Some a ->
  let w' := snd (deactivate_alert self alert_id w) in
  fst (deactivate_alert self alert_id w) = Return true /\
  alerts w' = updated (Alert.deactivated (readings (clock w) (reads (clock w))) a) (alerts w) /\
  session_clean w' /\ store_reliable w' /\
  clock w' = tick (clock w).
Proof.
  intros [Hn Hd] Hr Ha. cbv zeta. rewrite deactivate_run, !Hr, Ha.
  cbn [fst snd alerts session_new session_dirty clock store_fails].
  rewrite Hn, Hd. cbn. rewrite app_nil_r.
  repeat split. exact Hr.
Qed.

(** C4, as the code has it. With a clean session and a working database,
    deactivating a stored alert succeeds every time; each call stamps the end
    timestamp anew with its own clock reading, so after a second call the
    alert is still inactive and its end timestamp is the time of the second
    call, the next reading of the clock after the one the first call took. *)
Theorem second_deactivation_restamps :
  forall (self : AlertService) (alert_id : Z) (w : World),
    session_clean w -> store_reliable w ->
    (exists a, In a (alerts w) /\ Alert.id a = Some alert_id) ->
    let w1 := snd (deactivate_alert self alert_id w) in
    let w2 := snd (deactivate_alert self alert_id w1) in
    fst (deactivate_alert self alert_id w) = Return true /\
    fst (deactivate_alert self alert_id w1) = Return true /\
    (forall r, In r (alerts w1) -> Alert.id r = Some alert_id ->
       Alert.is_active r = Some false /\
       Alert.alert_end r = Some (readings (clock w) (reads (clock w)))) /\
    (forall r, In r (alerts w2) -> Alert.id r = Some alert_id ->
       Alert.is_active r = Some false /\
       Alert.alert_end r = Some (readings (clock w) (1 + reads (clock w))%nat)) /\
    (exists r, In r (alerts w2) /\ Alert.id r = Some alert_id).
Proof.
  intros self alert_id w Hc Hr (a0 & Hin0 & Hid0). cbv zeta.
  assert (Hp0 : has_id alert_id a0 = true) by (unfold has_id; rewrite Hid0; apply Z.eqb_refl).
  destruct (exists_first (has_id alert_id) (alerts w)) as (a & Ha);
    [exists a0; now split|].
  destruct (deactivate_up self alert_id w a Hc Hr Ha) as (R1 & A1 & C1 & S1 & K1).
  destruct (first_found _ _ _ Ha) as [Hina Hpa].
  set (d1 := Alert.deactivated (readings (clock w) (reads (clock w))) a) in *.
  assert (Hd1 : In d1 (alerts (snd (deactivate_alert self alert_id w)))).
  { rewrite A1. unfold updated. apply in_map_iff. exists a. split; [| exact Hina].
    unfold Session.same_id, has_id, d1 in *. cbn.
    destruct (Alert.id a); [now rewrite Z.eqb_refl | discriminate]. }
  assert (Hpd1 : has_id alert_id d1 = true) by exact Hpa.
  destruct (exists_first (has_id alert_id) (alerts (snd (deactivate_alert self alert_id w))))
    as (x & Hx); [exists d1; now split|].
  destruct (deactivate_up self alert_id _ x C1 S1 Hx) as (R2 & A2 & _ & _ & _).
  destruct (first_found _ _ _ Hx) as [Hinx Hpx].
  rewrite K1 in A2. cbn [tick readings reads] in A2.
  split; [exact R1|]. split; [exact R2|]. split; [| split].
  - intros r Hin Hid. rewrite A1 in Hin.
    rewrite (deactivated_rows alert_id _ a _ r Hpa Hin Hid). split; reflexivity.
  - intros r Hin Hid. rewrite A2 in Hin.
    rewrite (deactivated_rows alert_id _ x _ r Hpx Hin Hid). split; reflexivity.
  - eexists. split.
    + rewrite A2. unfold updated. apply in_map_iff. exists x. split; [| exact Hinx].
      unfold Session.same_id, has_id in *. cbn.
      destruct (Alert.id x); [now rewrite Z.eqb_refl | discriminate].
    + unfold has_id in Hpx. cbn. destruct (Alert.id x); [| discriminate].
      apply Z.eqb_eq in Hpx. now subst.
Qed.

Lemma witness_of_second_deactivation_restamps :
  let w := world_of (clock_from 6000000) never [stored_alert] in
  let w1 := snd (deactivate_alert alert_service 1 w) in
  let w2 := snd (deactivate_alert alert_service 1 w1) in
  session_clean w /\ store_reliable w /\
  In stored_alert (alerts w) /\ Alert.id stored_alert = Some 1 /\
  fst (deactivate_alert alert_service 1 w1) = Return true /\
  exists r, In r (alerts w2) /\ Alert.id r = Some 1 /\ Alert.alert_end r = Some 7000000.
Proof.
  cbv zeta.
  assert (Hc : session_clean (world_of (clock_from 6000000) never [stored_alert]))
    by (split; reflexivity).
  assert (Hr : store_reliable (world_of (clock_from 6000000) never [stored_alert]))
    by (intros k; reflexivity).
  assert (He : exists a, In a (alerts (world_of (clock_from 6000000) never [stored_alert]))
                         /\ Alert.id a = Some 1).
  { exists stored_alert. split; [now left | reflexivity]. }
  destruct (second_deactivation_restamps alert_service 1
              (world_of (clock_from 6000000) never [stored_alert]) Hc Hr He)
    as (_ & R2 & _ & H2 & (r & Hin & Hid)).
  split; [exact Hc|]. split; [exact Hr|]. split; [now left|]. split; [reflexivity|].
  split; [exact R2|].
  exists r. split; [exact Hin|]. split; [exact Hid|].
  exact (proj2 (H2 r Hin Hid)).
Defined.

(** C4 as stated fails: the first deactivation stamps 6000000, the second
    one succeeds as well and replaces the stamp by 7000000. *)
Lemma second_deactivation_changes_end :
  let w := world_of (clock_from 6000000) never [stored_alert] in
  let w1 := snd (deactivate_alert alert_service 1 w) in
  let w2 := snd (deactivate_alert alert_service 1 w1) in
  fst (deactivate_alert alert_service 1 w) = Return true /\
  map Alert.alert_end (alerts w1) = [Some 6000000] /\
  fst (deactivate_alert alert_service 1 w1) = Return true /\
  map Alert.alert_end (alerts w2) = [Some 7000000] /\
  alerts w2 <> alerts w1.
Proof.
  cbv zeta. split; [vm_compute; reflexivity|]. split; [vm_compute; reflexivity|].
  split; [vm_compute; reflexivity|]. split; [vm_compute; reflexivity|].
  intros H. apply (f_equal (map Alert.alert_end)) in H. vm_compute in H. discriminate.
Qed.

(** ** Deactivating an unknown alert *)





(** ** Active alerts of a location *)

(** C10. When the database answers, [get_active_alerts] with location id 0
    returns the active alerts of all locations, exactly as without a location
    id; with a positive location id it returns the active alerts of that
    location only. *)
Theorem location_zero_is_no_filter :
  forall (self : AlertService) (w : World),
    store_up 1 w ->
    (exists l,
       fst (get_active_alerts self (Some 0) w) = Return l /\
       Permutation l (filter (fun a => is_true (Alert.is_active a)) (alerts w))) /\
    fst (get_active_alerts self (Some 0) w) = fst (get_active_alerts self None w) /\
    (forall location_id,
       0 < location_id ->
       exists l,
         fst (get_active_alerts self (Some location_id) w) = Return l /\
         Permutation l
           (filter (fun a => is_true (Alert.is_active a)
                             && (Alert.location_id a =? location_id))
              (alerts w))).
Proof.
  intros self w Hup. pose proof (Hup 0%nat ltac:(lia)) as F0. cbn [Nat.add] in F0.
  rewrite !get_active_alerts_run, F0. cbn [fst Z.eqb].
  split; [| split].
  - eexists. split; [reflexivity|]. rewrite order_by_desc_perm.
    erewrite filter_ext; [reflexivity|]. intros a. now rewrite andb_true_r.
  - reflexivity.
  - intros l Hl. rewrite get_active_alerts_run, F0. cbn [fst].
    eexists. split; [reflexivity|]. rewrite order_by_desc_perm.
    erewrite filter_ext; [reflexivity|]. intros a. cbn beta.
    destruct (l =? 0) eqn:E; [apply Z.eqb_eq in E; lia | reflexivity].
Qed.

Lemma witness_of_location_zero_is_no_filter :
  store_up 1 tied_world /\
  fst (get_active_alerts alert_service (Some 0) tied_world)
  = fst (get_active_alerts alert_service None tied_world) /\
  fst (get_active_alerts alert_service (Some 0) tied_world)
  = Return [alert_at_2; alert_at_1] /\
  fst (get_active_alerts alert_service (Some 1) tied_world) = Return [alert_at_1].
Proof.
  assert (Hup : store_up 1 tied_world) by (intros k _; reflexivity).
  split; [exact Hup|]. split.
  - exact (proj1 (proj2 (location_zero_is_no_filter alert_service tied_world Hup))).
  - split; vm_compute; reflexivity.
Defined.

(** ** Statistics *)





Lemma window_exists_dec (w : World) (days : Z) :
  window_exists w days \/ ~ window_exists w days.
Proof.
  unfold window_exists.
  destruct (Z_le_dec (Z.abs days) 999999999) as [H | H];
    [| right; intros [H' _]; contradiction].
  destruct (is_datetime (readings (clock w) (reads (clock w)) - timedelta_days days));
    [left; now split | right; intros [_ H']; discriminate].
Qed.




